(** * ReceptenApp: the recipe and timer API of [backend/app.py]

    A shallow embedding of the Flask handlers together with the two
    PostgreSQL tables they work on.  The relational store is explicit
    state: two row lists and the two SERIAL sequences, threaded through
    a state-and-exception monad.  What the handlers receive from and
    send to the client is JSON. *)

From Stdlib Require Import ZArith List String Ascii Bool Lia DecimalString.
From Stdlib Require Import Permutation Sorted.
Import ListNotations.

Set Warnings "-register-all".

Local Open Scope string_scope.
Local Open Scope list_scope.
Local Open Scope Z_scope.

(** ** JSON values

    [request.get_json()] and [jsonify] exchange these.  Numbers are the
    integers; a [string] holds one character of a Python [str] per
    element; a Python [dict] is an association list read by first
    match. *)

Inductive json : Type :=
| JNull
| JBool (b : bool)
| JInt (n : Z)
| JStr (s : string)
| JArr (items : list json)
| JObj (fields : list (string * json)).

Fixpoint lookup (key : string) (fields : list (string * json)) : option json :=
  match fields with
  | [] => None
  | (k, v) :: rest => if String.eqb k key then Some v else lookup key rest
  end.

Definition keys (v : json) : option (list string) :=
  match v with
  | JObj fields => Some (map fst fields)
  | _ => None
  end.

(** A response is what a Flask view returns: the body and the status. *)
Definition response : Type := json * Z.

Definition jsonify (v : json) : json := v.

(** Status classes of a response. *)
Definition client_error (r : response) : Prop := 400 <= snd r < 500.

Definition server_error (r : response) : Prop := 500 <= snd r < 600.

(** ** Exceptions *)

Inductive exn : Type :=
| BadRequest                       (* the body is no JSON document *)
| TypeError                        (* a str subscript on something that is no dict *)
| KeyError (key : string)
| AttributeError
| ValueError                       (* psycopg2: NUL inside a string parameter *)
| ProgrammingError                 (* psycopg2: cannot adapt the parameter *)
| DataError (column : string)      (* the server rejects the literal for the column *)
| SequenceExhausted (sequence : string)
| NotNullViolation (column : string)
| UniqueViolation (constraint : string)
| ForeignKeyViolation (constraint : string).

Inductive outcome (A : Type) : Type :=
| Returns (a : A)
| Raises (e : exn).
Arguments Returns {A} a.
Arguments Raises {A} e.

(** ** Python's view of the payload *)

(** [data[key]] *)
Definition getitem (data : json) (key : string) : outcome json :=
  match data with
  | JObj fields =>
      match lookup key fields with
      | Some v => Returns v
      | None => Raises (KeyError key)
      end
  | _ => Raises TypeError
  end.

(** [data.get(key, default)] *)
Definition get (data : json) (key : string) (default : json) : outcome json :=
  match data with
  | JObj fields =>
      match lookup key fields with
      | Some v => Returns v
      | None => Returns default
      end
  | _ => Raises AttributeError
  end.

(** ** Parameters on their way to the server

    psycopg2 turns every Python parameter into an SQL literal before
    the statement is sent. *)

Inductive literal : Type :=
| LNull
| LBool (b : bool)
| LNum (n : Z)
| LStr (s : string)
| LArray (items : list literal).

Definition is_nul (c : ascii) : bool := Ascii.eqb c Ascii.zero.

Definition has_nul (s : string) : bool := existsb is_nul (list_ascii_of_string s).

Fixpoint adapt (v : json) : outcome literal :=
  match v with
  | JNull => Returns LNull
  | JBool b => Returns (LBool b)
  | JInt n => Returns (LNum n)
  | JStr s => if has_nul s then Raises ValueError else Returns (LStr s)
  | JArr items =>
      let fix adapt_all (l : list json) : outcome (list literal) :=
        match l with
        | [] => Returns []
        | x :: rest =>
            match adapt x with
            | Raises e => Raises e
            | Returns y =>
                match adapt_all rest with
                | Raises e => Raises e
                | Returns ys => Returns (y :: ys)
                end
            end
        end in
      match adapt_all items with
      | Raises e => Raises e
      | Returns ls => Returns (LArray ls)
      end
  | JObj _ => Raises ProgrammingError
  end.

(** ** The tables of [init_db] *)

Module Recipe.
(** [recipes]: id SERIAL PRIMARY KEY, title VARCHAR(255) NOT NULL,
    ingredients TEXT, instructions TEXT, cooking_time INTEGER,
    servings INTEGER, created_at TIMESTAMP.  A nullable column is an
    [option]. *)
Record row : Type := Row {
  id : Z;
  title : string;
  ingredients : option string;
  instructions : option string;
  cooking_time : option Z;
  servings : option Z;
  created_at : option Z
}.
End Recipe.

Module Timer.
(** [timers]: id SERIAL PRIMARY KEY, recipe_id INTEGER REFERENCES
    recipes(id), step_number INTEGER NOT NULL, step_description TEXT,
    duration_minutes INTEGER, active BOOLEAN, created_at TIMESTAMP. *)
Record row : Type := Row {
  id : Z;
  recipe_id : option Z;
  step_number : Z;
  step_description : option string;
  duration_minutes : option Z;
  active : option bool;
  created_at : option Z
}.

Definition set_active (a : option bool) (t : row) : row :=
  Row (id t) (recipe_id t) (step_number t) (step_description t)
      (duration_minutes t) a (created_at t).
End Timer.

(** The store: both tables in heap order and the next value of the
    sequence behind each SERIAL column. *)
Record database : Type := Database {
  recipes : list Recipe.row;
  timers : list Timer.row;
  recipes_id_seq : Z;
  timers_id_seq : Z
}.

(** The store right after [init_db] ran against a fresh server. *)
Definition init_db : database := Database [] [] 1 1.

(** ** Statements run against the store *)

Definition M (A : Type) : Type := database -> outcome A * database.

Definition ret {A : Type} (a : A) : M A := fun db => (Returns a, db).

Definition raise {A : Type} (e : exn) : M A := fun db => (Raises e, db).

Definition bind {A B : Type} (m : M A) (k : A -> M B) : M B :=
  fun db =>
    match m db with
    | (Returns a, db') => k a db'
    | (Raises e, db') => (Raises e, db')
    end.

Definition lift {A : Type} (o : outcome A) : M A := fun db => (o, db).

Notation "x <- m ;; k" := (bind m (fun x => k))
  (at level 61, m at next level, right associativity).

(** *** Column types *)

Definition int4_min : Z := -2147483648.
Definition int4_max : Z := 2147483647.

Definition in_int4 (n : Z) : bool := (int4_min <=? n) && (n <=? int4_max).

Definition is_space (c : ascii) : bool := Ascii.eqb c " "%char.

Definition all_spaces (s : string) : bool := forallb is_space (list_ascii_of_string s).

(** Storing into VARCHAR(n): too long a value is an error unless only
    spaces are cut off. *)
Definition varchar (n : nat) (column : string) (s : string) : outcome string :=
  if (String.length s <=? n)%nat then Returns s
  else if all_spaces (substring n (String.length s - n) s)
       then Returns (substring 0 n s)
       else Raises (DataError column).

(** NULLs sort as larger than every value. *)
Definition null_leb (a b : option Z) : bool :=
  match a, b with
  | _, None => true
  | None, Some _ => false
  | Some x, Some y => x <=? y
  end.

(** [NOT active] in three-valued logic *)
Definition sql_not (a : option bool) : option bool := option_map negb a.

(** *** ORDER BY

    The rows are put in order one after the other; rows the order does
    not tell apart stay as they were. *)

Fixpoint insert_by {A : Type} (leb : A -> A -> bool) (x : A) (l : list A) : list A :=
  match l with
  | [] => [x]
  | y :: rest => if leb x y then x :: l else y :: insert_by leb x rest
  end.

Definition order_by {A : Type} (leb : A -> A -> bool) (l : list A) : list A :=
  fold_right (insert_by leb) [] l.

(** [ORDER BY created_at DESC] on [recipes] *)
Definition created_at_desc (a b : Recipe.row) : bool :=
  null_leb (Recipe.created_at b) (Recipe.created_at a).

(** [ORDER BY step_number] on [timers] *)
Definition step_number_asc (a b : Timer.row) : bool :=
  Timer.step_number a <=? Timer.step_number b.

(** ** The world a request runs in *)

Record world : Type := World {
  environ : string -> option string;   (* os.environ.get *)
  accepts : bool;                      (* does psycopg2.connect succeed *)
  current_timestamp : Z;               (* the server's CURRENT_TIMESTAMP *)
  clock : Z;                           (* datetime.now() *)
  server_version : string              (* SELECT version() *)
}.

Record connection : Type := Connection {
  host : string;
  dbname : string;
  user : string;
  password : string;
  port : Z;
  sslmode : string
}.

Definition or_default (default : string) (o : option string) : string :=
  match o with
  | Some s => s
  | None => default
  end.

Definition nonempty (s : string) : bool := negb (String.eqb s "").

Definition get_db_connection (w : world) : option connection :=
  match environ w "DB_HOST", environ w "DB_PASSWORD" with
  | Some h, Some p =>
      let d := or_default "postgres" (environ w "DB_NAME") in
      let u := or_default "postgres" (environ w "DB_USER") in
      if negb (nonempty h && nonempty d && nonempty u && nonempty p) then None
      else if accepts w then Some (Connection h d u p 5432 "require")
      else None
  | _, _ => None
  end.

(** ** The server [init_db] is run against

    Each table is there or not; a table that is there has its rows and
    the next value of its sequence. *)

Record server : Type := Server {
  recipes_table : option (list Recipe.row * Z);
  timers_table : option (list Timer.row * Z)
}.

(** [CREATE TABLE IF NOT EXISTS] *)
Definition create_table_if_not_exists {A : Type} (table : option (list A * Z))
  : option (list A * Z) :=
  match table with
  | Some t => Some t
  | None => Some ([], 1)
  end.

(** The procedure [init_db]: without a connection it prints and
    returns; with one it creates [recipes], then [timers], and commits. *)
Definition init_db_on (w : world) (s : server) : server :=
  match get_db_connection w with
  | None => s
  | Some conn =>
      Server (create_table_if_not_exists (recipes_table s))
             (create_table_if_not_exists (timers_table s))
  end.

(** The store the handlers work on, once both tables are there. *)
Definition store_of (s : server) : option database :=
  match recipes_table s, timers_table s with
  | Some (rs, rseq), Some (ts, tseq) => Some (Database rs ts rseq tseq)
  | _, _ => None
  end.

(** ** Sample data

    A world with a reachable server, stand-ins for what the libraries
    print and read, and the payloads and stores of a short session. *)

Definition decimal (n : Z) : string := NilZero.string_of_int (Z.to_int n).

Definition example_isoformat (t : Z) : string := "T+" ++ decimal t.

Definition example_str (e : exn) : string :=
  match e with
  | BadRequest => "400 Bad Request"
  | TypeError => "object is not subscriptable"
  | KeyError key => "'" ++ key ++ "'"
  | AttributeError => "object has no attribute 'get'"
  | ValueError => "A string literal cannot contain NUL (0x00) characters."
  | ProgrammingError => "can't adapt type 'dict'"
  | DataError column => "invalid input for column " ++ column
  | SequenceExhausted sequence => "nextval: reached maximum value of sequence " ++ sequence
  | NotNullViolation column => "null value in column " ++ column
  | UniqueViolation constraint => "duplicate key value violates " ++ constraint
  | ForeignKeyViolation constraint => "insert or update violates " ++ constraint
  end.

Definition example_int4in (s : string) : option Z :=
  option_map Z.of_int (NilEmpty.int_of_string s).

Definition example_text_of (l : literal) : option string :=
  match l with
  | LBool true => Some "true"
  | LBool false => Some "false"
  | LNum n => Some (decimal n)
  | _ => None
  end.

Definition example_environ (name : string) : option string :=
  if String.eqb name "DB_HOST" then Some "db.example.org"
  else if String.eqb name "DB_PASSWORD" then Some "secret"
  else None.

Definition example_world (now : Z) : world :=
  World example_environ true now now "PostgreSQL 16.3".

Definition example_connection : connection :=
  Connection "db.example.org" "postgres" "postgres" "secret" 5432 "require".

Definition pasta : list (string * json) :=
  [("title", JStr "Pasta"); ("cooking_time", JInt 20); ("servings", JInt 2)].

Definition pasta_row : Recipe.row :=
  Recipe.Row 1 "Pasta" (Some "") (Some "") (Some 20) (Some 2) (Some 100).

(** The store after [pasta] was posted at time 100. *)
Definition pasta_db : database := Database [pasta_row] [] 2 1.

Definition first_step : list (string * json) :=
  [("recipe_id", JInt 1); ("step_number", JInt 1); ("duration_minutes", JInt 5)].

Definition first_step_row : Timer.row :=
  Timer.Row 1 (Some 1) 1 (Some "") (Some 5) (Some false) (Some 200).

(** The store after [first_step] was posted at time 200. *)
Definition timed_db : database := Database [pasta_row] [first_step_row] 2 2.

(** A second timer for the same step, and a second recipe. *)
Definition second_step_row : Timer.row :=
  Timer.Row 2 (Some 1) 1 (Some "") (Some 3) (Some false) (Some 250).

Definition two_timers_db : database :=
  Database [pasta_row] [first_step_row; second_step_row] 2 3.

Definition soep_row : Recipe.row :=
  Recipe.Row 2 "Soep" (Some "") (Some "") (Some 0) (Some 1) (Some 200).

Definition two_recipes_db : database := Database [pasta_row; soep_row] [] 3 1.

(** A title one character longer than the column. *)
Definition long_title : string := string_of_list_ascii (repeat "a"%char 256).

(** A timer payload that names no recipe, and two payloads with numbers
    the data model does not want. *)
Definition loose_step : list (string * json) :=
  [("recipe_id", JNull); ("step_number", JInt 1); ("duration_minutes", JInt 5)].

Definition odd_recipe : list (string * json) :=
  [("title", JStr "Soep"); ("cooking_time", JInt (-5)); ("servings", JInt 0)].

Definition odd_step : list (string * json) :=
  [("recipe_id", JInt 1); ("step_number", JInt 2); ("duration_minutes", JInt (-1))].

(** A world whose environment names no database, a payload with keys
    nobody reads, a server that has no tables yet and one that holds
    [pasta_db]. *)
Definition offline_world : world := World (fun _ => None) true 0 0 "".

Definition pasta_with_extras : list (string * json) :=
  pasta ++ [("id", JInt 99); ("created_at", JStr "yesterday"); ("active", JBool true)].

Definition fresh_server : server := Server None None.

Definition pasta_server : server := Server (Some ([pasta_row], 2)) (Some ([], 1)).

Section Service.

(** How the libraries print and read values: Python's rendering of a
    timestamp and of an exception, and what the server makes of a
    literal whose type is not the column's own.  The handlers pass
    these results on without looking into them, so they are left
    open. *)
Variable isoformat : Z -> string.             (* datetime.isoformat() *)
Variable str : exn -> string.                 (* str(e) *)
Variable int4in : string -> option Z.         (* a quoted literal read for an INTEGER column *)
Variable text_of : literal -> option string.  (* a literal that is no string, assigned to a character column *)

(** *** Values arriving in a column *)

Definition to_integer (column : string) (l : literal) : outcome (option Z) :=
  match l with
  | LNull => Returns None
  | LNum n => if in_int4 n then Returns (Some n) else Raises (DataError column)
  | LStr s =>
      match int4in s with
      | Some n => Returns (Some n)
      | None => Raises (DataError column)
      end
  | LBool _ => Raises (DataError column)
  | LArray _ => Raises (DataError column)
  end.

Definition to_text (column : string) (l : literal) : outcome (option string) :=
  match l with
  | LNull => Returns None
  | LStr s => Returns (Some s)
  | _ =>
      match text_of l with
      | Some s => Returns (Some s)
      | None => Raises (DataError column)
      end
  end.

Definition to_varchar (n : nat) (column : string) (l : literal) : outcome (option string) :=
  match to_text column l with
  | Returns (Some s) =>
      match varchar n column s with
      | Returns s' => Returns (Some s')
      | Raises e => Raises e
      end
  | other => other
  end.

(** *** nextval *)

Definition nextval_recipes : M Z := fun db =>
  let n := recipes_id_seq db in
  if n <=? int4_max
  then (Returns n, Database (recipes db) (timers db) (n + 1) (timers_id_seq db))
  else (Raises (SequenceExhausted "recipes_id_seq"), db).

Definition nextval_timers : M Z := fun db =>
  let n := timers_id_seq db in
  if n <=? int4_max
  then (Returns n, Database (recipes db) (timers db) (recipes_id_seq db) (n + 1))
  else (Raises (SequenceExhausted "timers_id_seq"), db).

Definition has_recipe (i : Z) (db : database) : bool :=
  existsb (fun r => Recipe.id r =? i) (recipes db).

Definition has_timer (i : Z) (db : database) : bool :=
  existsb (fun t => Timer.id t =? i) (timers db).

(** *** INSERT INTO recipes (title, ingredients, instructions,
        cooking_time, servings) VALUES (...) RETURNING id

    The values are read for their columns first; then the row takes
    its id from the sequence and its created_at from the clock, and
    the constraints are checked.  A sequence value handed out is not
    given back when the statement fails. *)
Definition insert_recipe (now : Z) (p1 p2 p3 p4 p5 : literal) : M Z :=
  title <- lift (to_varchar 255 "title" p1) ;;
  ingredients <- lift (to_text "ingredients" p2) ;;
  instructions <- lift (to_text "instructions" p3) ;;
  cooking_time <- lift (to_integer "cooking_time" p4) ;;
  servings <- lift (to_integer "servings" p5) ;;
  id <- nextval_recipes ;;
  match title with
  | None => raise (NotNullViolation "title")
  | Some title => fun db =>
      if has_recipe id db then (Raises (UniqueViolation "recipes_pkey"), db)
      else
        let r := Recipe.Row id title ingredients instructions
                            cooking_time servings (Some now) in
        (Returns id,
         Database (recipes db ++ [r]) (timers db)
                  (recipes_id_seq db) (timers_id_seq db))
  end.

(** *** INSERT INTO timers (recipe_id, step_number, step_description,
        duration_minutes) VALUES (...) RETURNING id *)
Definition insert_timer (now : Z) (p1 p2 p3 p4 : literal) : M Z :=
  recipe_id <- lift (to_integer "recipe_id" p1) ;;
  step_number <- lift (to_integer "step_number" p2) ;;
  step_description <- lift (to_text "step_description" p3) ;;
  duration_minutes <- lift (to_integer "duration_minutes" p4) ;;
  id <- nextval_timers ;;
  match step_number with
  | None => raise (NotNullViolation "step_number")
  | Some step_number => fun db =>
      if has_timer id db then (Raises (UniqueViolation "timers_pkey"), db)
      else
        let references :=
          match recipe_id with
          | None => true
          | Some r => has_recipe r db
          end in
        if negb references
        then (Raises (ForeignKeyViolation "timers_recipe_id_fkey"), db)
        else
          let t := Timer.Row id recipe_id step_number step_description
                             duration_minutes (Some false) (Some now) in
          (Returns id,
           Database (recipes db) (timers db ++ [t])
                    (recipes_id_seq db) (timers_id_seq db))
  end.

(** *** SELECT * FROM recipes ORDER BY created_at DESC *)
Definition select_recipes : M (list Recipe.row) := fun db =>
  (Returns (order_by created_at_desc (recipes db)), db).

(** *** SELECT * FROM recipes WHERE id = %s, then fetchone *)
Definition select_recipe (recipe_id : Z) : M (option Recipe.row) := fun db =>
  (Returns (find (fun r => Recipe.id r =? recipe_id) (recipes db)), db).

Definition of_recipe (recipe_id : Z) (t : Timer.row) : bool :=
  match Timer.recipe_id t with
  | Some r => r =? recipe_id
  | None => false
  end.

(** *** SELECT * FROM timers WHERE recipe_id = %s ORDER BY step_number *)
Definition select_timers (recipe_id : Z) : M (list Timer.row) := fun db =>
  (Returns (order_by step_number_asc (filter (of_recipe recipe_id) (timers db))), db).

(** The new version an UPDATE ... SET active = NOT active writes of a row. *)
Definition flipped (t : Timer.row) : Timer.row :=
  Timer.set_active (sql_not (Timer.active t)) t.

(** *** UPDATE timers SET active = NOT active WHERE id = %s
        RETURNING active, then fetchone

    The rows the statement does not touch stay where they are; of each
    row it touches a new version is written, which a later scan of the
    table meets after them. *)
Definition update_active (timer_id : Z) : M (option (option bool)) := fun db =>
  let untouched := filter (fun t => negb (Timer.id t =? timer_id)) (timers db) in
  let updated := map flipped (filter (fun t => Timer.id t =? timer_id) (timers db)) in
  let returning := map Timer.active updated in
  (Returns (hd_error returning),
   Database (recipes db) (untouched ++ updated)
            (recipes_id_seq db) (timers_id_seq db)).

(** ** The endpoints *)

(** [request.get_json()]; [None] stands for a body Flask cannot read
    as JSON. *)
Definition get_json (body : option json) : M json :=
  match body with
  | Some data => ret data
  | None => raise BadRequest
  end.

(** [try: ... except Exception as e: return jsonify({"error": str(e)}), 500] *)
Definition except_Exception (view : M response) : database -> response * database :=
  fun db =>
    match view db with
    | (Returns r, db') => (r, db')
    | (Raises e, db') => ((jsonify (JObj [("error", JStr (str e))]), 500), db')
    end.

Definition connection_failed : response :=
  (jsonify (JObj [("error", JStr "Database connection failed")]), 500).

Definition text_json (o : option string) : json :=
  match o with
  | Some s => JStr s
  | None => JNull
  end.

Definition int_json (o : option Z) : json :=
  match o with
  | Some n => JInt n
  | None => JNull
  end.

Definition bool_json (o : option bool) : json :=
  match o with
  | Some b => JBool b
  | None => JNull
  end.

(** [x.isoformat() if x else None] *)
Definition iso_json (o : option Z) : json :=
  match o with
  | Some t => JStr (isoformat t)
  | None => JNull
  end.

Definition health_check (w : world) : database -> response * database :=
  fun db =>
    ((jsonify (JObj [("status", JStr "ok");
                     ("message", JStr "ReceptenApp API is running!");
                     ("timestamp", JStr (isoformat (clock w)))]), 200), db).

Definition db_test (w : world) : database -> response * database :=
  fun db =>
    match get_db_connection w with
    | Some conn =>
        ((jsonify (JObj [("status", JStr "Connected");
                         ("version", JStr (server_version w))]), 200), db)
    | None =>
        ((jsonify (JObj [("status", JStr "Failed");
                         ("error", JStr "Could not create connection")]), 500), db)
    end.

Definition recipe_fields (recipe : Recipe.row) : list (string * json) :=
  [("id", JInt (Recipe.id recipe));
   ("title", JStr (Recipe.title recipe));
   ("ingredients", text_json (Recipe.ingredients recipe));
   ("instructions", text_json (Recipe.instructions recipe));
   ("cooking_time", int_json (Recipe.cooking_time recipe));
   ("servings", int_json (Recipe.servings recipe));
   ("created_at", iso_json (Recipe.created_at recipe))].

Definition get_recipes (w : world) : database -> response * database :=
  except_Exception (
    match get_db_connection w with
    | None => ret connection_failed
    | Some conn =>
        recipes <- select_recipes ;;
        let recipe_list := map (fun recipe => JObj (recipe_fields recipe)) recipes in
        ret (jsonify (JArr recipe_list), 200)
    end).

Definition add_recipe (w : world) (body : option json) : database -> response * database :=
  except_Exception (
    data <- get_json body ;;
    match get_db_connection w with
    | None => ret connection_failed
    | Some conn =>
        title <- lift (getitem data "title") ;;
        ingredients <- lift (get data "ingredients" (JStr "")) ;;
        instructions <- lift (get data "instructions" (JStr "")) ;;
        cooking_time <- lift (get data "cooking_time" (JInt 0)) ;;
        servings <- lift (get data "servings" (JInt 1)) ;;
        p1 <- lift (adapt title) ;;
        p2 <- lift (adapt ingredients) ;;
        p3 <- lift (adapt instructions) ;;
        p4 <- lift (adapt cooking_time) ;;
        p5 <- lift (adapt servings) ;;
        recipe_id <- insert_recipe (current_timestamp w) p1 p2 p3 p4 p5 ;;
        ret (jsonify (JObj [("message", JStr "Recept toegevoegd");
                            ("recipe_id", JInt recipe_id)]), 201)
    end).

Definition timer_fields (timer : Timer.row) : list (string * json) :=
  [("id", JInt (Timer.id timer));
   ("step_number", JInt (Timer.step_number timer));
   ("step_description", text_json (Timer.step_description timer));
   ("duration_minutes", int_json (Timer.duration_minutes timer));
   ("active", bool_json (Timer.active timer))].

Definition get_recipe (w : world) (recipe_id : Z) : database -> response * database :=
  except_Exception (
    match get_db_connection w with
    | None => ret connection_failed
    | Some conn =>
        recipe <- select_recipe recipe_id ;;
        match recipe with
        | None => ret (jsonify (JObj [("error", JStr "Recept niet gevonden")]), 404)
        | Some recipe =>
            timers <- select_timers recipe_id ;;
            let recipe_data :=
              recipe_fields recipe
              ++ [("timers", JArr (map (fun timer => JObj (timer_fields timer)) timers))] in
            ret (jsonify (JObj recipe_data), 200)
        end
    end).

Definition add_timer (w : world) (body : option json) : database -> response * database :=
  except_Exception (
    data <- get_json body ;;
    match get_db_connection w with
    | None => ret connection_failed
    | Some conn =>
        recipe_id <- lift (getitem data "recipe_id") ;;
        step_number <- lift (getitem data "step_number") ;;
        step_description <- lift (get data "step_description" (JStr "")) ;;
        duration_minutes <- lift (getitem data "duration_minutes") ;;
        p1 <- lift (adapt recipe_id) ;;
        p2 <- lift (adapt step_number) ;;
        p3 <- lift (adapt step_description) ;;
        p4 <- lift (adapt duration_minutes) ;;
        timer_id <- insert_timer (current_timestamp w) p1 p2 p3 p4 ;;
        ret (jsonify (JObj [("message", JStr "Timer toegevoegd");
                            ("timer_id", JInt timer_id)]), 201)
    end).

Definition toggle_timer (w : world) (timer_id : Z) : database -> response * database :=
  except_Exception (
    match get_db_connection w with
    | None => ret connection_failed
    | Some conn =>
        result <- update_active timer_id ;;
        match result with
        | Some active => ret (jsonify (JObj [("active", bool_json active)]), 200)
        | None => ret (jsonify (JObj [("error", JStr "Timer niet gevonden")]), 404)
        end
    end).

(** The routes of the application. *)
Inductive request : Type :=
| GET_health
| GET_db_test
| GET_recipes
| POST_recipes (body : option json)
| GET_recipe (recipe_id : Z)
| POST_timers (body : option json)
| POST_toggle (timer_id : Z).

Definition serve (w : world) (req : request) : database -> response * database :=
  match req with
  | GET_health => health_check w
  | GET_db_test => db_test w
  | GET_recipes => get_recipes w
  | POST_recipes body => add_recipe w body
  | GET_recipe recipe_id => get_recipe w recipe_id
  | POST_timers body => add_timer w body
  | POST_toggle timer_id => toggle_timer w timer_id
  end.

(** ** What the theorems speak about *)

(** The row a timer id stands for. *)
Definition timer_by_id (i : Z) (db : database) : option Timer.row :=
  find (fun t => Timer.id t =? i) (timers db).

(** Two versions of a timer row that agree on every column but [active]. *)
Definition same_but_active (t t' : Timer.row) : Prop :=
  Timer.id t' = Timer.id t /\
  Timer.recipe_id t' = Timer.recipe_id t /\
  Timer.step_number t' = Timer.step_number t /\
  Timer.step_description t' = Timer.step_description t /\
  Timer.duration_minutes t' = Timer.duration_minutes t /\
  Timer.created_at t' = Timer.created_at t.

(** What a toggle of [timer_id] makes of a row: rows with that id get
    their flag flipped, the others are left as they are. *)
Definition toggled (timer_id : Z) (t : Timer.row) : Timer.row :=
  if Timer.id t =? timer_id
  then Timer.set_active (sql_not (Timer.active t)) t
  else t.

(** The timers table as [update_active] leaves it. *)
Definition after_toggle (timer_id : Z) (l : list Timer.row) : list Timer.row :=
  filter (fun t => negb (Timer.id t =? timer_id)) l
  ++ map flipped (filter (fun t => Timer.id t =? timer_id) l).

(** In a list that goes from the newest recipe to the oldest, [a] may
    stand before [b]: [a] was not created before [b].  A row without a
    created_at stands before every row that has one. *)
Definition newest_first (a b : Recipe.row) : Prop :=
  match Recipe.created_at a, Recipe.created_at b with
  | Some x, Some y => y <= x
  | None, _ => True
  | Some _, None => False
  end.

(** [a] is listed before [b] under ORDER BY step_number. *)
Definition lowest_step_first (a b : Timer.row) : Prop :=
  Timer.step_number a <= Timer.step_number b.

Definition recipe_keys : list string :=
  ["id"; "title"; "ingredients"; "instructions"; "cooking_time"; "servings";
   "created_at"].

Definition timer_keys : list string :=
  ["id"; "step_number"; "step_description"; "duration_minutes"; "active"].


(** The numeric constraints of the data model. *)
Definition recipe_numbers_hold (r : Recipe.row) : Prop :=
  (exists n, Recipe.cooking_time r = Some n /\ 0 <= n) /\
  (exists n, Recipe.servings r = Some n /\ 0 < n).

Definition timer_numbers_hold (t : Timer.row) : Prop :=
  exists n, Timer.duration_minutes t = Some n /\ 0 <= n.

(** Recipe rows are only ever appended.  The timer rows afterwards are,
    in some order, one later version of every timer row stored before,
    agreeing with it on every column but [active], and rows that are
    new. *)
Definition only_active_differs (db db' : database) : Prop :=
  (exists new, recipes db' = recipes db ++ new) /\
  (exists kept new,
      Permutation (kept ++ new) (timers db') /\
      Forall2 same_but_active (timers db) kept).

(** What the primary keys, the sequences and the foreign key make true
    of every store the API can reach from [init_db]; also, since
    [active] is only written by its default and by NOT, it is never
    null. *)
Record consistent (db : database) : Prop := {
  recipe_ids_issued :
    Forall (fun r => Recipe.id r < recipes_id_seq db) (recipes db);
  recipes_pkey : NoDup (map Recipe.id (recipes db));
  timer_ids_issued :
    Forall (fun t => Timer.id t < timers_id_seq db) (timers db);
  timers_pkey : NoDup (map Timer.id (timers db));
  timers_recipe_id_fkey :
    Forall (fun t => forall r, Timer.recipe_id t = Some r -> has_recipe r db = true)
           (timers db);
  active_not_null : Forall (fun t => Timer.active t <> None) (timers db)
}.

(** The value a payload gives for [key], or [default] when it has none. *)
Definition field_or (key : string) (default : json) (fields : list (string * json)) : json :=
  match lookup key fields with
  | Some v => v
  | None => default
  end.

(** Values a character column takes as they are: null or a string. *)
Definition text_value (v : json) : bool :=
  match v with
  | JNull => true
  | JStr s => negb (has_nul s)
  | _ => false
  end.

(** Values an INTEGER column takes as they are: null or a 32-bit integer. *)
Definition integer_value (v : json) : bool :=
  match v with
  | JNull => true
  | JInt n => in_int4 n
  | _ => false
  end.

(** A recipe payload is valid when its title is a string that fits the
    column and each optional field is left out or has a value of its
    column's type. *)
Definition valid_recipe (fields : list (string * json)) : bool :=
  match lookup "title" fields with
  | Some (JStr s) => negb (has_nul s) && (String.length s <=? 255)%nat
  | _ => false
  end
  && text_value (field_or "ingredients" (JStr "") fields)
  && text_value (field_or "instructions" (JStr "") fields)
  && integer_value (field_or "cooking_time" (JInt 0) fields)
  && integer_value (field_or "servings" (JInt 1) fields).

(** A timer payload is valid when recipe_id and step_number are 32-bit
    integers, duration_minutes is present with a value of its column's
    type, and step_description is left out or is such a value. *)
Definition valid_timer (fields : list (string * json)) : bool :=
  match lookup "recipe_id" fields, lookup "step_number" fields,
        lookup "duration_minutes" fields with
  | Some (JInt r), Some (JInt n), Some d =>
      in_int4 r && in_int4 n && integer_value d
  | _, _, _ => false
  end
  && text_value (field_or "step_description" (JStr "") fields).

(** ** Sessions and payload shapes *)

(** Requests served one after the other, each in its own world. *)
Fixpoint session (reqs : list (world * request)) (db : database) : database :=
  match reqs with
  | [] => db
  | (w, req) :: rest => session rest (snd (serve w req db))
  end.

(** The routes that only read. *)
Definition is_read (req : request) : bool :=
  match req with
  | GET_health | GET_db_test | GET_recipes | GET_recipe _ => true
  | POST_recipes _ | POST_timers _ | POST_toggle _ => false
  end.

(** The routes that answer failures with [{"error": ...}]. *)
Definition is_data_route (req : request) : bool :=
  match req with
  | GET_health | GET_db_test => false
  | _ => true
  end.

Definition is_object (v : json) : bool :=
  match v with
  | JObj _ => true
  | _ => false
  end.

(** The keys the two creating handlers read. *)
Definition recipe_payload_keys : list string :=
  ["title"; "ingredients"; "instructions"; "cooking_time"; "servings"].

Definition timer_payload_keys : list string :=
  ["recipe_id"; "step_number"; "step_description"; "duration_minutes"].

Definition agree_on (ks : list string) (f1 f2 : list (string * json)) : Prop :=
  Forall (fun k => lookup k f1 = lookup k f2) ks.

(** A short session on the sample data: a recipe, a timer, a toggle, a
    request while the database is not configured, a timer for no
    recipe, a recipe without a title. *)
Definition sample_session : list (world * request) :=
  [(example_world 100, POST_recipes (Some (JObj pasta)));
   (example_world 200, POST_timers (Some (JObj first_step)));
   (example_world 300, POST_toggle 1);
   (offline_world, GET_recipes);
   (example_world 400, POST_timers (Some (JObj loose_step)));
   (example_world 500, POST_recipes (Some (JObj [("servings", JInt 4)])))].

(** ** Tactics for running a handler *)

Ltac break_match :=
  match goal with
  | |- context [match ?x with _ => _ end] =>
      lazymatch x with
      | context [match _ with _ => _ end] => fail
      | _ => destruct x eqn:?
      end
  end.

Ltac tidy :=
  repeat match goal with
    | H : (if ?c then _ else _) = (_, _) |- _ => destruct c eqn:?
    | H : (_, _) = (_, _) |- _ => injection H as ? ?
    | H : Returns _ = Returns _ |- _ => injection H as ?
    | H : Raises _ = Raises _ |- _ => injection H as ?
    | H : Some _ = Some _ |- _ => injection H as ?
    | H : Returns _ = Raises _ |- _ => discriminate H
    | H : Raises _ = Returns _ |- _ => discriminate H
    | H : Some _ = None |- _ => discriminate H
    | H : None = Some _ |- _ => discriminate H
    end;
  subst;
  cbn [fst snd recipes timers recipes_id_seq timers_id_seq] in *.

Ltac run :=
  unfold except_Exception, get_json, bind, lift, ret, raise, connection_failed, jsonify;
  repeat (break_match; cbn [fst snd recipes timers recipes_id_seq timers_id_seq]);
  tidy.

Ltac success_of H :=
  repeat match type of H with
    | exists _, _ => let x := fresh "x" in destruct H as (x & H)
    end.

(** ** Basic facts *)

Lemma database_eta (db : database) :
  Database (recipes db) (timers db) (recipes_id_seq db) (timers_id_seq db) = db.
Proof. destruct db; reflexivity. Qed.

Lemma sql_not_involutive (a : option bool) : sql_not (sql_not a) = a.
Proof. destruct a as [[|]|]; reflexivity. Qed.

Lemma toggled_twice (i : Z) (t : Timer.row) : toggled i (toggled i t) = t.
Proof.
  unfold toggled. destruct (Timer.id t =? i) eqn:E; cbn; rewrite E; [|reflexivity].
  destruct t; cbn. now rewrite sql_not_involutive.
Qed.

Lemma toggled_id (i : Z) (t : Timer.row) : Timer.id (toggled i t) = Timer.id t.
Proof. unfold toggled. destruct (Timer.id t =? i); reflexivity. Qed.

Lemma toggled_same_but_active (i : Z) (t : Timer.row) :
  same_but_active t (toggled i t).
Proof.
  unfold toggled, same_but_active.
  destruct (Timer.id t =? i); cbn; repeat split; reflexivity.
Qed.

Lemma toggled_other (i : Z) (t : Timer.row) :
  Timer.id t <> i -> toggled i t = t.
Proof.
  intros H. unfold toggled.
  destruct (Z.eqb_spec (Timer.id t) i); [contradiction | reflexivity].
Qed.

Lemma flipped_twice (t : Timer.row) : flipped (flipped t) = t.
Proof. destruct t; unfold flipped; cbn. now rewrite sql_not_involutive. Qed.

Lemma map_toggled_twice (i : Z) (l : list Timer.row) :
  map (toggled i) (map (toggled i) l) = l.
Proof.
  rewrite map_map. rewrite <- (map_id l) at 2.
  apply map_ext. apply toggled_twice.
Qed.

Lemma find_absent (i : Z) (l : list Recipe.row) :
  existsb (fun r => Recipe.id r =? i) l = false ->
  find (fun r => Recipe.id r =? i) l = None.
Proof.
  induction l as [|r l IH]; cbn; [reflexivity|].
  intros H. apply orb_false_iff in H as [Hr Hl].
  rewrite Hr. auto.
Qed.

Lemma find_app_split {A : Type} (p : A -> bool) (l l' : list A) :
  find p (l ++ l') = match find p l with Some x => Some x | None => find p l' end.
Proof.
  induction l as [|x l IH]; cbn; [reflexivity|]. destruct (p x); auto.
Qed.

(** A toggle of an id no timer has leaves the table as it is. *)
Lemma after_toggle_absent (i : Z) (l : list Timer.row) :
  existsb (fun t => Timer.id t =? i) l = false -> after_toggle i l = l.
Proof.
  unfold after_toggle. induction l as [|t l IH]; cbn; [reflexivity|].
  intros H. apply orb_false_iff in H as [Ht Hl].
  rewrite Ht. cbn. now rewrite IH.
Qed.

(** The table after a toggle is, up to the order of its rows, the table
    before with [toggled] applied to every row. *)
Lemma after_toggle_perm (i : Z) (l : list Timer.row) :
  Permutation (map (toggled i) l) (after_toggle i l).
Proof.
  unfold after_toggle. induction l as [|t l IH]; cbn; [constructor|].
  unfold toggled at 1. destruct (Timer.id t =? i); cbn.
  - now apply Permutation_cons_app.
  - now apply perm_skip.
Qed.

(** The first row UPDATE ... RETURNING hands back is the new version of
    the first row with that id. *)
Lemma returning_first (i : Z) (l : list Timer.row) :
  hd_error (map Timer.active (map flipped (filter (fun t => Timer.id t =? i) l)))
  = option_map (fun t => sql_not (Timer.active t))
               (find (fun t => Timer.id t =? i) l).
Proof.
  induction l as [|t l IH]; cbn; [reflexivity|].
  destruct (Timer.id t =? i); [reflexivity | exact IH].
Qed.

Lemma find_untouched (i j : Z) (l : list Timer.row) :
  find (fun t => Timer.id t =? j) (filter (fun t => negb (Timer.id t =? i)) l)
  = if i =? j then None else find (fun t => Timer.id t =? j) l.
Proof.
  induction l as [|t l IH]; cbn; [now destruct (i =? j)|].
  destruct (Z.eqb_spec (Timer.id t) i) as [Ei|Ei]; cbn.
  - rewrite IH. destruct (Z.eqb_spec i j) as [Ej|Ej]; [reflexivity|].
    destruct (Z.eqb_spec (Timer.id t) j); [congruence | reflexivity].
  - destruct (Z.eqb_spec (Timer.id t) j) as [Ej|Ej]; [|exact IH].
    destruct (Z.eqb_spec i j); [congruence | reflexivity].
Qed.

Lemma find_updated (i j : Z) (l : list Timer.row) :
  find (fun t => Timer.id t =? j) (map flipped (filter (fun t => Timer.id t =? i) l))
  = if i =? j then option_map flipped (find (fun t => Timer.id t =? i) l) else None.
Proof.
  induction l as [|t l IH]; cbn; [now destruct (i =? j)|].
  destruct (Z.eqb_spec (Timer.id t) i) as [Ei|Ei]; cbn; [|exact IH].
  destruct (Z.eqb_spec i j) as [Ej|Ej].
  - destruct (Z.eqb_spec (Timer.id t) j); [reflexivity | congruence].
  - destruct (Z.eqb_spec (Timer.id t) j); [congruence|].
    rewrite IH. destruct (Z.eqb_spec i j); [contradiction | reflexivity].
Qed.

(** The row an id stands for after a toggle of [i]: the new version of
    the row for [i] itself, the same row for any other id. *)
Lemma find_after_toggle (i j : Z) (l : list Timer.row) :
  find (fun t => Timer.id t =? j) (after_toggle i l)
  = if i =? j then option_map flipped (find (fun t => Timer.id t =? i) l)
    else find (fun t => Timer.id t =? j) l.
Proof.
  unfold after_toggle. rewrite find_app_split, find_untouched, find_updated.
  destruct (i =? j); [reflexivity|].
  now destruct (find _ l).
Qed.

Lemma timer_absent (i : Z) (db : database) :
  has_timer i db = false -> timer_by_id i db = None.
Proof.
  unfold has_timer, timer_by_id. induction (timers db) as [|t l IH]; cbn; [reflexivity|].
  intros H. apply orb_false_iff in H as [Ht Hl]. rewrite Ht. auto.
Qed.

(** [toggle_timer] with a connection, in one equation. *)
Lemma toggle_timer_connected (w : world) (c : connection) (i : Z) (db : database) :
  get_db_connection w = Some c ->
  toggle_timer w i db =
    (match timer_by_id i db with
     | Some t => (JObj [("active", bool_json (sql_not (Timer.active t)))], 200)
     | None => (JObj [("error", JStr "Timer niet gevonden")], 404)
     end,
     Database (recipes db) (after_toggle i (timers db))
              (recipes_id_seq db) (timers_id_seq db)).
Proof.
  intros H. unfold toggle_timer, except_Exception, update_active, bind, ret, jsonify,
    timer_by_id, after_toggle.
  rewrite H, returning_first. destruct (find _ (timers db)); reflexivity.
Qed.

Lemma toggle_timer_offline (w : world) :
  get_db_connection w = None ->
  forall i db, toggle_timer w i db = (connection_failed, db).
Proof.
  intros H i db. unfold toggle_timer, except_Exception, bind, ret. now rewrite H.
Qed.

Lemma insert_by_perm {A : Type} (leb : A -> A -> bool) (x : A) (l : list A) :
  Permutation (x :: l) (insert_by leb x l).
Proof.
  induction l as [|y l IH]; cbn; [reflexivity|].
  destruct (leb x y); [reflexivity|].
  rewrite perm_swap. now apply perm_skip.
Qed.

Lemma order_by_perm {A : Type} (leb : A -> A -> bool) (l : list A) :
  Permutation l (order_by leb l).
Proof.
  induction l as [|x l IH]; cbn; [reflexivity|].
  rewrite <- insert_by_perm. now apply perm_skip.
Qed.

Section Ordered.

Context {A : Type} (leb : A -> A -> bool).
Hypothesis leb_total : forall a b, leb a b = true \/ leb b a = true.
Hypothesis leb_trans : forall a b c, leb a b = true -> leb b c = true -> leb a c = true.

Lemma insert_by_sorted (x : A) (l : list A) :
  StronglySorted (fun a b => leb a b = true) l ->
  StronglySorted (fun a b => leb a b = true) (insert_by leb x l).
Proof.
  induction 1 as [|y l Hs IH Hy]; cbn; [repeat constructor|].
  destruct (leb x y) eqn:E.
  - constructor; [now constructor|]. constructor; [exact E|].
    eapply Forall_impl; [|exact Hy]. intros b Hb. now apply (leb_trans x y b).
  - constructor; [exact IH|].
    apply (Permutation_Forall (insert_by_perm leb x l)).
    constructor; [|exact Hy].
    destruct (leb_total x y) as [H|H]; [congruence | exact H].
Qed.

Lemma order_by_sorted (l : list A) :
  StronglySorted (fun a b => leb a b = true) (order_by leb l).
Proof.
  induction l as [|x l IH]; cbn; [constructor | now apply insert_by_sorted].
Qed.

End Ordered.

Lemma recipes_sorted (l : list Recipe.row) :
  StronglySorted newest_first (order_by created_at_desc l).
Proof.
  assert (H : StronglySorted (fun a b => created_at_desc a b = true)
                             (order_by created_at_desc l)).
  { apply order_by_sorted; intros a b; unfold created_at_desc, null_leb.
    - destruct (Recipe.created_at a) as [x|], (Recipe.created_at b) as [y|]; auto.
      destruct (Z.leb_spec y x); [left | right]; auto. apply Z.leb_le. lia.
    - intros c.
      destruct (Recipe.created_at a), (Recipe.created_at b), (Recipe.created_at c);
        try congruence; rewrite !Z.leb_le; lia. }
  induction H as [|r l' Hs IH Hall]; constructor; [exact IH|].
  eapply Forall_impl; [|exact Hall].
  intros b. unfold created_at_desc, null_leb, newest_first.
  destruct (Recipe.created_at r), (Recipe.created_at b);
    try discriminate; try (intros _; exact I).
  apply Z.leb_le.
Qed.

Lemma timers_sorted (l : list Timer.row) :
  StronglySorted lowest_step_first (order_by step_number_asc l).
Proof.
  assert (H : StronglySorted (fun a b => step_number_asc a b = true)
                             (order_by step_number_asc l)).
  { apply order_by_sorted; intros a b; unfold step_number_asc.
    - destruct (Z.leb_spec (Timer.step_number a) (Timer.step_number b)); auto.
      right. apply Z.leb_le. lia.
    - intros c. rewrite !Z.leb_le. lia. }
  induction H as [|t l' Hs IH Hall]; constructor; [exact IH|].
  eapply Forall_impl; [|exact Hall].
  intros b Hb. unfold lowest_step_first. apply Z.leb_le. exact Hb.
Qed.

(** In a list that goes from newest to oldest, of two rows created at
    different times the later one comes first. *)
Lemma newer_is_listed_first (rows : list Recipe.row) :
  StronglySorted newest_first rows ->
  forall a b x y,
    In a rows -> In b rows ->
    Recipe.created_at a = Some x -> Recipe.created_at b = Some y -> y < x ->
    exists before between after, rows = before ++ a :: between ++ b :: after.
Proof.
  induction 1 as [|r rows Hs IH Hall]; intros a b x y Ha Hb Hx Hy Hlt; [contradiction|].
  rewrite Forall_forall in Hall.
  destruct Ha as [<- | Ha].
  - destruct Hb as [<- | Hb]; [rewrite Hx in Hy; injection Hy as ->; lia|].
    apply in_split in Hb as (l1 & l2 & ->). exists [], l1, l2. reflexivity.
  - destruct Hb as [<- | Hb].
    + specialize (Hall a Ha). unfold newest_first in Hall.
      rewrite Hy, Hx in Hall. lia.
    + destruct (IH a b x y Ha Hb Hx Hy Hlt) as (l0 & l1 & l2 & ->).
      exists (r :: l0), l1, l2. reflexivity.
Qed.

(** ** Reads *)

(** C6.  With a connection, [get_recipes] answers 200 with one object
    per stored recipe, each made of the seven columns of its row (id,
    title, ingredients, instructions, cooking_time, servings,
    created_at) and of nothing else, so without a "timers" field.  The
    rows listed are a rearrangement of the table, and they go from the
    newest to the oldest: no row is listed before one that was created
    later.  An empty table gives the empty list, and the store is left
    as it was. *)
Theorem get_recipes_newest_first (w : world) (conn : connection) (db : database) :
  get_db_connection w = Some conn ->
  exists rows objects,
    get_recipes w db = ((JArr objects, 200), db) /\
    objects =
      map (fun r =>
             JObj [("id", JInt (Recipe.id r));
                   ("title", JStr (Recipe.title r));
                   ("ingredients", text_json (Recipe.ingredients r));
                   ("instructions", text_json (Recipe.instructions r));
                   ("cooking_time", int_json (Recipe.cooking_time r));
                   ("servings", int_json (Recipe.servings r));
                   ("created_at", iso_json (Recipe.created_at r))])
          rows /\
    Permutation (recipes db) rows /\
    StronglySorted newest_first rows /\
    (forall a b x y,
        In a rows -> In b rows ->
        Recipe.created_at a = Some x -> Recipe.created_at b = Some y -> y < x ->
        exists before between after, rows = before ++ a :: between ++ b :: after) /\
    (recipes db = [] -> objects = []) /\
    Forall (fun o => keys o = Some recipe_keys /\ ~ In "timers" recipe_keys) objects.
Proof.
  intros Hconn. exists (order_by created_at_desc (recipes db)). eexists.
  unfold get_recipes, except_Exception, select_recipes, bind, ret, jsonify.
  rewrite Hconn. split; [reflexivity|]. split; [reflexivity|].
  split; [apply order_by_perm|].
  split; [apply recipes_sorted|].
  split; [apply newer_is_listed_first, recipes_sorted|].
  split; [intros ->; reflexivity|].
  apply Forall_map, Forall_forall. intros r _. split; [reflexivity|].
  cbn. intros H. repeat (destruct H as [H|H]; [discriminate|]). exact H.
Qed.

(** C10.  Whenever [get_recipe] answers 200, the body carries under
    "timers" one object per stored timer of that recipe, and each such
    object has exactly the fields id, step_number, step_description,
    duration_minutes and active: neither recipe_id nor created_at. *)
Theorem get_recipe_timer_fields (w : world) (recipe_id : Z) (db db' : database)
    (body : json) :
  get_recipe w recipe_id db = ((body, 200), db') ->
  exists fields rows,
    body = JObj fields /\
    lookup "timers" fields = Some (JArr (map (fun t => JObj (timer_fields t)) rows)) /\
    Permutation (filter (of_recipe recipe_id) (timers db)) rows /\
    Forall (fun o => keys o = Some timer_keys /\
                     ~ In "recipe_id" timer_keys /\ ~ In "created_at" timer_keys)
           (map (fun t => JObj (timer_fields t)) rows).
Proof.
  unfold get_recipe, except_Exception, select_recipe, select_timers, bind, ret,
    connection_failed, jsonify.
  destruct (get_db_connection w) as [conn|]; [|discriminate].
  destruct (find _ (recipes db)) as [recipe|]; [|discriminate].
  intros H. injection H as <- _.
  eexists _, (order_by step_number_asc (filter (of_recipe recipe_id) (timers db))).
  split; [reflexivity|]. split; [reflexivity|].
  split; [apply order_by_perm|].
  apply Forall_map, Forall_forall. intros t _. split; [reflexivity|].
  split; cbn; intros H; repeat (destruct H as [H|H]; [discriminate|]); exact H.
Qed.

(** ** Absent rows *)

(** C3.  With a connection: [get_recipe] on an id no recipe has
    answers 404 with a body whose only field is "error", and
    [toggle_timer] on an id no timer has answers 404 likewise; in both
    cases the store comes back unchanged. *)
Theorem absent_id_is_404 (w : world) (conn : connection) (db : database) (i : Z) :
  get_db_connection w = Some conn ->
  (has_recipe i db = false ->
   get_recipe w i db = ((JObj [("error", JStr "Recept niet gevonden")], 404), db)) /\
  (has_timer i db = false ->
   toggle_timer w i db = ((JObj [("error", JStr "Timer niet gevonden")], 404), db)).
Proof.
  intros Hconn. split; intros Habs.
  - unfold get_recipe, except_Exception, select_recipe, bind, ret, jsonify.
    rewrite Hconn. unfold has_recipe in Habs. now rewrite (find_absent _ _ Habs).
  - rewrite (toggle_timer_connected w conn i db Hconn), (timer_absent i db Habs).
    unfold has_timer in Habs. rewrite (after_toggle_absent _ _ Habs).
    now rewrite database_eta.
Qed.

(** ** Toggling *)

(** C2.  With a connection, for a stored timer whose flag is [b]:
    [toggle_timer] answers 200 with the flipped flag [negb b] (the new
    value, not the old one), and the timer is then stored with that
    flag; a second call answers 200 with [b], after which the timer is
    stored as it was at the start.  After the two calls every timer id
    stands for the row it stood for before, the timers table holds the
    rows it held before (in whatever order), and recipes and sequences
    are as before. *)
Theorem toggle_timer_twice (w1 w2 : world) (c1 c2 : connection) (db : database)
    (i : Z) (t : Timer.row) (b : bool) :
  get_db_connection w1 = Some c1 ->
  get_db_connection w2 = Some c2 ->
  timer_by_id i db = Some t ->
  Timer.active t = Some b ->
  exists db1 db2,
    toggle_timer w1 i db = ((JObj [("active", JBool (negb b))], 200), db1) /\
    timer_by_id i db1 = Some (Timer.set_active (Some (negb b)) t) /\
    toggle_timer w2 i db1 = ((JObj [("active", JBool b)], 200), db2) /\
    timer_by_id i db2 = Some t /\
    (forall j, timer_by_id j db2 = timer_by_id j db) /\
    Permutation (timers db) (timers db2) /\
    recipes db2 = recipes db /\
    recipes_id_seq db2 = recipes_id_seq db /\
    timers_id_seq db2 = timers_id_seq db.
Proof.
  intros H1 H2 Ht Hb.
  set (db1 := Database (recipes db) (after_toggle i (timers db))
                       (recipes_id_seq db) (timers_id_seq db)).
  set (db2 := Database (recipes db1) (after_toggle i (timers db1))
                       (recipes_id_seq db1) (timers_id_seq db1)).
  assert (Et : flipped t = Timer.set_active (Some (negb b)) t).
  { unfold flipped. now rewrite Hb. }
  assert (F1 : timer_by_id i db1 = Some (Timer.set_active (Some (negb b)) t)).
  { unfold timer_by_id in *. cbn [db1 timers].
    rewrite find_after_toggle, Z.eqb_refl, Ht. cbn. now rewrite Et. }
  assert (F2 : forall j, timer_by_id j db2 = timer_by_id j db).
  { intros j. unfold timer_by_id. cbn [db2 db1 timers].
    rewrite !find_after_toggle. destruct (i =? j) eqn:E; [|reflexivity].
    rewrite Z.eqb_refl. apply Z.eqb_eq in E as <-.
    destruct (find _ (timers db)); cbn; [|reflexivity]. now rewrite flipped_twice. }
  exists db1, db2.
  split; [|split; [exact F1|split; [|split; [|split; [exact F2|split]]]]].
  - rewrite (toggle_timer_connected w1 c1 i db H1), Ht, Hb. reflexivity.
  - rewrite (toggle_timer_connected w2 c2 i db1 H2), F1. cbn.
    now rewrite negb_involutive.
  - now rewrite F2.
  - cbn [db2 db1 timers].
    rewrite <- (after_toggle_perm i (after_toggle i (timers db))).
    rewrite <- (Permutation_map (toggled i) (after_toggle_perm i (timers db))).
    now rewrite map_toggled_twice.
  - repeat split.
Qed.

(** ** What a request may change *)

Lemma same_but_active_refl (t : Timer.row) : same_but_active t t.
Proof. unfold same_but_active. repeat split; reflexivity. Qed.

Lemma Forall2_same (l : list Timer.row) : Forall2 same_but_active l l.
Proof. induction l; constructor; auto using same_but_active_refl. Qed.

Lemma only_active_differs_refl (db : database) : only_active_differs db db.
Proof.
  split; [exists []|exists (timers db), []]; rewrite app_nil_r; auto using Forall2_same.
Qed.

Lemma only_active_differs_tables (db db' : database) :
  recipes db' = recipes db -> timers db' = timers db -> only_active_differs db db'.
Proof.
  intros Hr Ht. split; [exists []|exists (timers db), []];
    rewrite app_nil_r, ?Ht; auto using Forall2_same.
Qed.

(** Every way [add_recipe] can end: either the row described by the
    payload is appended and the answer is 201, or the answer is 500
    and both tables are as before. *)
Lemma add_recipe_cases (w : world) (body : option json) (db : database) :
  (exists fields v1 v2 v3 v4 v5 p1 p2 p3 p4 p5 title ingredients instructions
          cooking_time servings,
      body = Some (JObj fields) /\
      lookup "title" fields = Some v1 /\
      get (JObj fields) "ingredients" (JStr "") = Returns v2 /\
      get (JObj fields) "instructions" (JStr "") = Returns v3 /\
      get (JObj fields) "cooking_time" (JInt 0) = Returns v4 /\
      get (JObj fields) "servings" (JInt 1) = Returns v5 /\
      adapt v1 = Returns p1 /\ adapt v2 = Returns p2 /\ adapt v3 = Returns p3 /\
      adapt v4 = Returns p4 /\ adapt v5 = Returns p5 /\
      to_varchar 255 "title" p1 = Returns (Some title) /\
      to_text "ingredients" p2 = Returns ingredients /\
      to_text "instructions" p3 = Returns instructions /\
      to_integer "cooking_time" p4 = Returns cooking_time /\
      to_integer "servings" p5 = Returns servings /\
      recipes_id_seq db <= int4_max /\
      has_recipe (recipes_id_seq db) db = false /\
      add_recipe w body db =
        ((JObj [("message", JStr "Recept toegevoegd");
                ("recipe_id", JInt (recipes_id_seq db))], 201),
         Database (recipes db ++
                     [Recipe.Row (recipes_id_seq db) title ingredients instructions
                                 cooking_time servings (Some (current_timestamp w))])
                  (timers db) (recipes_id_seq db + 1) (timers_id_seq db)))
  \/
  (exists msg db',
      add_recipe w body db = ((JObj [("error", JStr msg)], 500), db') /\
      recipes db' = recipes db /\ timers db' = timers db /\
      timers_id_seq db' = timers_id_seq db /\
      (recipes_id_seq db' = recipes_id_seq db \/
       recipes_id_seq db' = recipes_id_seq db + 1)).
Proof.
  unfold add_recipe, insert_recipe, nextval_recipes, getitem.
  run.
  all: try (right; eexists _, _; split; [reflexivity|]; cbn; auto; fail).
  left. repeat eexists; try eassumption.
  now apply Z.leb_le.
Qed.

(** Likewise for [add_timer]. *)
Lemma add_timer_cases (w : world) (body : option json) (db : database) :
  (exists fields v1 v2 v3 v4 p1 p2 p3 p4 recipe_id step_number step_description
          duration_minutes,
      body = Some (JObj fields) /\
      lookup "recipe_id" fields = Some v1 /\
      lookup "step_number" fields = Some v2 /\
      get (JObj fields) "step_description" (JStr "") = Returns v3 /\
      lookup "duration_minutes" fields = Some v4 /\
      adapt v1 = Returns p1 /\ adapt v2 = Returns p2 /\ adapt v3 = Returns p3 /\
      adapt v4 = Returns p4 /\
      to_integer "recipe_id" p1 = Returns recipe_id /\
      to_integer "step_number" p2 = Returns (Some step_number) /\
      to_text "step_description" p3 = Returns step_description /\
      to_integer "duration_minutes" p4 = Returns duration_minutes /\
      timers_id_seq db <= int4_max /\
      has_timer (timers_id_seq db) db = false /\
      (forall r, recipe_id = Some r -> has_recipe r db = true) /\
      add_timer w body db =
        ((JObj [("message", JStr "Timer toegevoegd");
                ("timer_id", JInt (timers_id_seq db))], 201),
         Database (recipes db)
                  (timers db ++
                     [Timer.Row (timers_id_seq db) recipe_id step_number
                                step_description duration_minutes (Some false)
                                (Some (current_timestamp w))])
                  (recipes_id_seq db) (timers_id_seq db + 1)))
  \/
  (exists msg db',
      add_timer w body db = ((JObj [("error", JStr msg)], 500), db') /\
      recipes db' = recipes db /\ timers db' = timers db /\
      recipes_id_seq db' = recipes_id_seq db /\
      (timers_id_seq db' = timers_id_seq db \/
       timers_id_seq db' = timers_id_seq db + 1)).
Proof.
  unfold add_timer, insert_timer, nextval_timers, getitem.
  run.
  all: try (right; eexists _, _; split; [reflexivity|]; cbn; auto; fail).
  all: left; repeat eexists; try eassumption; try (now apply Z.leb_le);
    try (intros ? [= <-]; cbn in *;
         match goal with H : negb _ = false |- _ =>
           apply negb_false_iff in H; exact H end);
    try discriminate.
Qed.

Lemma toggle_timer_store (w : world) (i : Z) (db : database) :
  snd (toggle_timer w i db) = db \/
  snd (toggle_timer w i db) =
    Database (recipes db) (after_toggle i (timers db))
             (recipes_id_seq db) (timers_id_seq db).
Proof.
  destruct (get_db_connection w) as [c|] eqn:H.
  - right. now rewrite (toggle_timer_connected w c i db H).
  - left. now rewrite (toggle_timer_offline w H).
Qed.

Lemma reads_keep_store (w : world) (db : database) :
  snd (health_check w db) = db /\ snd (db_test w db) = db /\
  snd (get_recipes w db) = db /\ forall i, snd (get_recipe w i db) = db.
Proof.
  repeat split; [unfold db_test | unfold get_recipes, select_recipes | intros i;
    unfold get_recipe, select_recipe, select_timers]; run; reflexivity.
Qed.

Lemma Forall2_toggled (i : Z) (l : list Timer.row) :
  Forall2 (fun t t' => same_but_active t t' /\ (Timer.id t <> i -> t' = t))
          l (map (toggled i) l).
Proof.
  induction l as [|t l IH]; cbn; constructor; [|exact IH].
  split; [apply toggled_same_but_active | apply toggled_other].
Qed.

(** C8.  [toggle_timer] leaves every recipe and both sequences alone.
    The timers table after the call holds, in some order, one row for
    every row it held before: that row agrees with the earlier one on
    every column but [active] (id, recipe_id, step_number,
    step_description, duration_minutes, created_at), and is the very
    same row when its id is not the one toggled.  For every request of
    the API, recipe rows are only appended, and every timer row stored
    before is still there with at most its [active] changed. *)
Theorem toggle_timer_only_active (w : world) (i : Z) (db : database) :
  let db' := snd (toggle_timer w i db) in
  recipes db' = recipes db /\
  recipes_id_seq db' = recipes_id_seq db /\
  timers_id_seq db' = timers_id_seq db /\
  (exists kept,
      Permutation kept (timers db') /\
      Forall2 (fun t t' => same_but_active t t' /\ (Timer.id t <> i -> t' = t))
              (timers db) kept) /\
  (forall j, j <> i -> timer_by_id j db' = timer_by_id j db) /\
  (forall w' req, only_active_differs db (snd (serve w' req db))).
Proof.
  cbn zeta.
  assert (Hframe : Forall2
            (fun t t' => same_but_active t t' /\ (Timer.id t <> i -> t' = t))
            (timers db) (timers db)).
  { induction (timers db); constructor; auto using same_but_active_refl. }
  split; [|split; [|split; [|split; [|split]]]].
  1-3: destruct (toggle_timer_store w i db) as [-> | ->]; reflexivity.
  - destruct (toggle_timer_store w i db) as [-> | ->]; cbn [timers].
    + exists (timers db). split; [reflexivity | exact Hframe].
    + exists (map (toggled i) (timers db)).
      split; [apply after_toggle_perm | apply Forall2_toggled].
  - intros j Hj. destruct (toggle_timer_store w i db) as [-> | ->]; [reflexivity|].
    unfold timer_by_id. cbn [timers]. rewrite find_after_toggle.
    destruct (Z.eqb_spec i j); [congruence | reflexivity].
  - intros w' req. destruct (reads_keep_store w' db) as (Hh & Ht & Hl & Hg).
    destruct req as [ | | |body|j|body|j]; cbn [serve];
      rewrite ?Hh, ?Ht, ?Hl, ?Hg; auto using only_active_differs_refl.
    + destruct (add_recipe_cases w' body db) as [H | (msg & db' & -> & Hr & Ht' & _)].
      * destruct H as (? & ? & ? & ? & ? & ? & ? & ? & ? & ? & ? & ? & ? & ? & ? & ? & H).
        repeat match type of H with _ /\ _ => destruct H as [_ H] end. rewrite H. cbn.
        split; [eexists; reflexivity|].
        exists (timers db), []. rewrite app_nil_r. auto using Forall2_same.
      * cbn. now apply only_active_differs_tables.
    + destruct (add_timer_cases w' body db) as [H | (msg & db' & -> & Hr & Ht' & _)].
      * destruct H as (? & ? & ? & ? & ? & ? & ? & ? & ? & ? & ? & ? & ? & H).
        repeat match type of H with _ /\ _ => destruct H as [_ H] end. rewrite H. cbn.
        split; [exists []; now rewrite app_nil_r|].
        eexists (timers db), _. split; [apply Permutation_refl | apply Forall2_same].
      * cbn. now apply only_active_differs_tables.
    + destruct (toggle_timer_store w' j db) as [-> | ->]; cbn;
        auto using only_active_differs_refl.
      split; [exists []; now rewrite app_nil_r|].
      exists (map (toggled j) (timers db)), []. rewrite app_nil_r.
      split; [apply after_toggle_perm|].
      eapply Forall2_impl; [|apply Forall2_toggled]. intros ? ? [H _]. exact H.
Qed.

(** ** The constraints of the schema as an invariant *)

Lemma consistent_init_db : consistent init_db.
Proof. split; cbn; constructor. Qed.

Lemma has_recipe_In (i : Z) (db : database) :
  has_recipe i db = true <-> In i (map Recipe.id (recipes db)).
Proof.
  unfold has_recipe. rewrite existsb_exists, in_map_iff.
  split; intros (r & H1 & H2).
  - exists r. apply Z.eqb_eq in H2. auto.
  - exists r. split; [assumption|]. now apply Z.eqb_eq.
Qed.

Lemma has_timer_In (i : Z) (db : database) :
  has_timer i db = true <-> In i (map Timer.id (timers db)).
Proof.
  unfold has_timer. rewrite existsb_exists, in_map_iff.
  split; intros (t & H1 & H2).
  - exists t. apply Z.eqb_eq in H2. auto.
  - exists t. split; [assumption|]. now apply Z.eqb_eq.
Qed.

Lemma NoDup_snoc (l : list Z) (x : Z) : NoDup l -> ~ In x l -> NoDup (l ++ [x]).
Proof.
  intros Hl Hx. apply (Permutation_NoDup (l := x :: l)).
  - apply Permutation_cons_append.
  - now constructor.
Qed.

(** A sequence value not yet handed out belongs to no row. *)
Lemma next_recipe_id_fresh (db : database) :
  consistent db -> has_recipe (recipes_id_seq db) db = false.
Proof.
  intros C. destruct (has_recipe (recipes_id_seq db) db) eqn:E; [|reflexivity].
  apply has_recipe_In, in_map_iff in E as (r & E & Hin).
  pose proof (recipe_ids_issued db C) as H. rewrite Forall_forall in H.
  specialize (H r Hin). lia.
Qed.

Lemma next_timer_id_fresh (db : database) :
  consistent db -> has_timer (timers_id_seq db) db = false.
Proof.
  intros C. destruct (has_timer (timers_id_seq db) db) eqn:E; [|reflexivity].
  apply has_timer_In, in_map_iff in E as (t & E & Hin).
  pose proof (timer_ids_issued db C) as H. rewrite Forall_forall in H.
  specialize (H t Hin). lia.
Qed.

Lemma consistent_same_tables (db db' : database) :
  consistent db ->
  recipes db' = recipes db -> timers db' = timers db ->
  recipes_id_seq db <= recipes_id_seq db' ->
  timers_id_seq db <= timers_id_seq db' ->
  consistent db'.
Proof.
  intros [H1 H2 H3 H4 H5 H6] Hr Ht Hs1 Hs2.
  split; unfold has_recipe in *; rewrite ?Hr, ?Ht; auto.
  - eapply Forall_impl; [|exact H1]. cbn. intros. lia.
  - eapply Forall_impl; [|exact H3]. cbn. intros. lia.
Qed.

Lemma consistent_toggled (i : Z) (db : database) :
  consistent db ->
  consistent (Database (recipes db) (after_toggle i (timers db))
                       (recipes_id_seq db) (timers_id_seq db)).
Proof.
  intros [H1 H2 H3 H4 H5 H6].
  pose proof (after_toggle_perm i (timers db)) as P.
  assert (Hid : map Timer.id (map (toggled i) (timers db)) = map Timer.id (timers db)).
  { rewrite map_map. apply map_ext. apply toggled_id. }
  split; cbn; auto.
  - apply (Permutation_Forall P).
    apply Forall_map. eapply Forall_impl; [|exact H3].
    intros t. now rewrite toggled_id.
  - apply (Permutation_NoDup (Permutation_map Timer.id P)). now rewrite Hid.
  - apply (Permutation_Forall P).
    apply Forall_map. eapply Forall_impl; [|exact H5].
    intros t Ht r. destruct (toggled_same_but_active i t) as (_ & -> & _).
    apply Ht.
  - apply (Permutation_Forall P).
    apply Forall_map. eapply Forall_impl; [|exact H6].
    intros t Ht. unfold toggled. destruct (Timer.id t =? i); [|exact Ht].
    cbn. destruct (Timer.active t) eqn:E; [discriminate | congruence].
Qed.

Lemma consistent_recipe_added (db : database) (r : Recipe.row) :
  consistent db ->
  Recipe.id r = recipes_id_seq db ->
  consistent (Database (recipes db ++ [r]) (timers db)
                       (recipes_id_seq db + 1) (timers_id_seq db)).
Proof.
  intros C Hid. pose proof (next_recipe_id_fresh db C) as Hfresh.
  destruct C as [H1 H2 H3 H4 H5 H6].
  split; cbn; auto.
  - apply Forall_app. split.
    + eapply Forall_impl; [|exact H1]. cbn. intros. lia.
    + repeat constructor. lia.
  - rewrite map_app. cbn. apply NoDup_snoc; [exact H2|].
    rewrite Hid, <- has_recipe_In, Hfresh. discriminate.
  - eapply Forall_impl; [|exact H5]. intros t Ht x Hx.
    specialize (Ht x Hx). unfold has_recipe in *. cbn.
    rewrite existsb_app, Ht. reflexivity.
Qed.

Lemma consistent_timer_added (db : database) (t : Timer.row) :
  consistent db ->
  Timer.id t = timers_id_seq db ->
  (forall r, Timer.recipe_id t = Some r -> has_recipe r db = true) ->
  Timer.active t <> None ->
  consistent (Database (recipes db) (timers db ++ [t])
                       (recipes_id_seq db) (timers_id_seq db + 1)).
Proof.
  intros C Hid Hfk Hact. pose proof (next_timer_id_fresh db C) as Hfresh.
  destruct C as [H1 H2 H3 H4 H5 H6].
  split; cbn; auto.
  - apply Forall_app. split.
    + eapply Forall_impl; [|exact H3]. cbn. intros. lia.
    + repeat constructor. lia.
  - rewrite map_app. cbn. apply NoDup_snoc; [exact H4|].
    rewrite Hid, <- has_timer_In, Hfresh. discriminate.
  - apply Forall_app. split; [exact H5|]. repeat constructor. exact Hfk.
  - apply Forall_app. split; [exact H6|]. repeat constructor. exact Hact.
Qed.

(** Every request keeps the store consistent. *)
Lemma serve_consistent (w : world) (req : request) (db : database) :
  consistent db -> consistent (snd (serve w req db)).
Proof.
  intros C. destruct (reads_keep_store w db) as (Hh & Ht & Hl & Hg).
  destruct req as [ | | |body|j|body|j]; cbn [serve];
    rewrite ?Hh, ?Ht, ?Hl, ?Hg; auto.
  - destruct (add_recipe_cases w body db) as [H | (msg & db' & -> & Hr & Ht' & Hs & Hs')].
    + destruct H as (? & ? & ? & ? & ? & ? & ? & ? & ? & ? & ? & ? & ? & ? & ? & ? & H).
      repeat match type of H with _ /\ _ => destruct H as [_ H] end. rewrite H. cbn.
      now apply consistent_recipe_added.
    + cbn. apply (consistent_same_tables db); auto; lia.
  - destruct (add_timer_cases w body db) as [H | (msg & db' & -> & Hr & Ht' & Hs & Hs')].
    + destruct H as (? & ? & ? & ? & ? & ? & ? & ? & ? & rid & ? & ? & ? & H).
      destruct H as (_ & _ & _ & _ & _ & _ & _ & _ & _ & _ & _ & _ & _ & _ & _ & Hfk & H).
      rewrite H. cbn.
      apply consistent_timer_added; cbn; auto. discriminate.
    + cbn. apply (consistent_same_tables db); auto; lia.
  - destruct (toggle_timer_store w j db) as [-> | ->]; auto using consistent_toggled.
Qed.

(** ** Creating a recipe and reading it back *)

Lemma get_field_or (fields : list (string * json)) (key : string) (default : json) :
  get (JObj fields) key default = Returns (field_or key default fields).
Proof. unfold get, field_or. destruct (lookup key fields); reflexivity. Qed.

Lemma text_value_stored (column : string) (v : json) :
  text_value v = true ->
  exists l o, adapt v = Returns l /\ to_text column l = Returns o /\ text_json o = v.
Proof.
  destruct v; cbn; try discriminate.
  - intros _. exists LNull, None. auto.
  - intros H. apply negb_true_iff in H. rewrite H.
    exists (LStr s), (Some s). auto.
Qed.

Lemma integer_value_stored (column : string) (v : json) :
  integer_value v = true ->
  exists l o, adapt v = Returns l /\ to_integer column l = Returns o /\ int_json o = v.
Proof.
  destruct v; cbn; try discriminate.
  - intros _. exists LNull, None. auto.
  - intros H. exists (LNum n), (Some n). cbn. rewrite H. auto.
Qed.

Lemma find_snoc_fresh {A : Type} (p : A -> bool) (l : list A) (x : A) :
  existsb p l = false -> p x = true -> find p (l ++ [x]) = Some x.
Proof.
  induction l as [|y l IH]; cbn; intros Hl Hx.
  - now rewrite Hx.
  - apply orb_false_iff in Hl as [Hy Hl]. rewrite Hy. auto.
Qed.

(** No timer refers to a recipe id that was never handed out. *)
Lemma no_timers_of_fresh_recipe (db : database) :
  consistent db ->
  filter (of_recipe (recipes_id_seq db)) (timers db) = [].
Proof.
  intros C. pose proof (next_recipe_id_fresh db C) as Hfresh.
  pose proof (timers_recipe_id_fkey db C) as Hfk.
  induction Hfk as [|t l Ht Hl IH]; cbn; [reflexivity|].
  unfold of_recipe at 1. destruct (Timer.recipe_id t) as [r|] eqn:E; [|exact IH].
  destruct (Z.eqb_spec r (recipes_id_seq db)) as [->|]; [|exact IH].
  specialize (Ht _ eq_refl). congruence.
Qed.

(** C1.  With a connection for both requests, a consistent store and
    an id left in the sequence: [add_recipe] on a valid payload
    answers 201 with a recipe_id, and [get_recipe] on that id then
    answers 200 with the title, ingredients, instructions,
    cooking_time and servings of the payload, where a field left out
    reads "", "", 0 and 1, and with "timers" empty. *)
Theorem add_recipe_then_get_recipe (w1 w2 : world) (c1 c2 : connection)
    (db : database) (fields : list (string * json)) :
  get_db_connection w1 = Some c1 ->
  get_db_connection w2 = Some c2 ->
  consistent db ->
  recipes_id_seq db <= int4_max ->
  valid_recipe fields = true ->
  exists recipe_id db' title,
    lookup "title" fields = Some title /\
    add_recipe w1 (Some (JObj fields)) db =
      ((JObj [("message", JStr "Recept toegevoegd");
              ("recipe_id", JInt recipe_id)], 201), db') /\
    get_recipe w2 recipe_id db' =
      ((JObj [("id", JInt recipe_id);
              ("title", title);
              ("ingredients", field_or "ingredients" (JStr "") fields);
              ("instructions", field_or "instructions" (JStr "") fields);
              ("cooking_time", field_or "cooking_time" (JInt 0) fields);
              ("servings", field_or "servings" (JInt 1) fields);
              ("created_at", JStr (isoformat (current_timestamp w1)));
              ("timers", JArr [])], 200), db').
Proof.
  intros H1 H2 C Hseq Hvalid. unfold valid_recipe in Hvalid.
  apply andb_true_iff in Hvalid as [Hvalid Hsv].
  apply andb_true_iff in Hvalid as [Hvalid Hct].
  apply andb_true_iff in Hvalid as [Hvalid Hins].
  apply andb_true_iff in Hvalid as [Hvalid Hing].
  destruct (lookup "title" fields) as [[| | |s| |]|] eqn:Htitle; try discriminate.
  apply andb_true_iff in Hvalid as [Hnul Hlen]. apply negb_true_iff in Hnul.
  destruct (text_value_stored "ingredients" _ Hing) as (l2 & o2 & A2 & S2 & J2).
  destruct (text_value_stored "instructions" _ Hins) as (l3 & o3 & A3 & S3 & J3).
  destruct (integer_value_stored "cooking_time" _ Hct) as (l4 & o4 & A4 & S4 & J4).
  destruct (integer_value_stored "servings" _ Hsv) as (l5 & o5 & A5 & S5 & J5).
  pose proof (next_recipe_id_fresh db C) as Hfresh.
  exists (recipes_id_seq db). eexists. exists (JStr s). split; [reflexivity|].
  split.
  - unfold add_recipe, except_Exception, get_json, bind, lift, ret, jsonify.
    rewrite H1. unfold getitem. rewrite Htitle, !get_field_or.
    cbn [adapt]. rewrite Hnul, A2, A3, A4, A5.
    unfold insert_recipe, nextval_recipes, bind, lift, to_varchar, to_text, varchar.
    rewrite Hlen. fold (to_text "ingredients" l2). fold (to_text "instructions" l3).
    rewrite S2, S3, S4, S5.
    apply Z.leb_le in Hseq. rewrite Hseq.
    cbn [recipes timers recipes_id_seq timers_id_seq has_recipe].
    unfold has_recipe in *. cbn [recipes]. rewrite Hfresh. reflexivity.
  - unfold get_recipe, except_Exception, select_recipe, select_timers, bind, ret, jsonify.
    rewrite H2. cbn [recipes timers].
    unfold has_recipe in Hfresh.
    rewrite (find_snoc_fresh _ _ _ Hfresh) by (cbn; apply Z.eqb_refl).
    cbn [timers]. rewrite (no_timers_of_fresh_recipe db C).
    cbn. rewrite J2, J3, J4, J5. reflexivity.
Qed.

(** ** Creating a timer and reading its recipe *)

Lemma find_present (i : Z) (db : database) :
  has_recipe i db = true ->
  exists recipe, find (fun r => Recipe.id r =? i) (recipes db) = Some recipe.
Proof.
  unfold has_recipe. intros H.
  destruct (find _ (recipes db)) as [recipe|] eqn:E; [eauto|].
  apply existsb_exists in H as (x & Hin & Hx).
  now rewrite (find_none _ _ E x Hin) in Hx.
Qed.

(** C7.  With a connection for both requests, a consistent store and
    an id left in the sequence: [add_timer] on a valid payload naming
    a stored recipe answers 201 with a timer_id, and [get_recipe] on
    that recipe then answers 200 with, under "timers", the objects of
    exactly the timers of the recipe, the new one (inactive) among
    them, listed by step_number ascending. *)
Theorem add_timer_then_get_recipe (w1 w2 : world) (c1 c2 : connection)
    (db : database) (fields : list (string * json)) (r n : Z) (d : json) :
  get_db_connection w1 = Some c1 ->
  get_db_connection w2 = Some c2 ->
  consistent db ->
  timers_id_seq db <= int4_max ->
  valid_timer fields = true ->
  lookup "recipe_id" fields = Some (JInt r) ->
  lookup "step_number" fields = Some (JInt n) ->
  lookup "duration_minutes" fields = Some d ->
  has_recipe r db = true ->
  exists timer_id db' body rows t,
    add_timer w1 (Some (JObj fields)) db =
      ((JObj [("message", JStr "Timer toegevoegd");
              ("timer_id", JInt timer_id)], 201), db') /\
    get_recipe w2 r db' = ((JObj body, 200), db') /\
    lookup "timers" body = Some (JArr (map (fun t => JObj (timer_fields t)) rows)) /\
    Permutation (filter (of_recipe r) (timers db')) rows /\
    StronglySorted lowest_step_first rows /\
    In t rows /\
    timer_fields t =
      [("id", JInt timer_id);
       ("step_number", JInt n);
       ("step_description", field_or "step_description" (JStr "") fields);
       ("duration_minutes", d);
       ("active", JBool false)].
Proof.
  intros H1 H2 C Hseq Hvalid Hr Hn Hd Hhas. unfold valid_timer in Hvalid.
  rewrite Hr, Hn, Hd in Hvalid.
  apply andb_true_iff in Hvalid as [Hvalid Hdesc].
  apply andb_true_iff in Hvalid as [Hvalid Hdur].
  apply andb_true_iff in Hvalid as [Hr4 Hn4].
  destruct (text_value_stored "step_description" _ Hdesc) as (l3 & o3 & A3 & S3 & J3).
  destruct (integer_value_stored "duration_minutes" _ Hdur) as (l4 & o4 & A4 & S4 & J4).
  pose proof (next_timer_id_fresh db C) as Hfresh.
  destruct (find_present r db Hhas) as (recipe & Hfind).
  set (t := Timer.Row (timers_id_seq db) (Some r) n o3 o4 (Some false)
                      (Some (current_timestamp w1))).
  set (db' := Database (recipes db) (timers db ++ [t])
                       (recipes_id_seq db) (timers_id_seq db + 1)).
  exists (timers_id_seq db), db'. eexists.
  exists (order_by step_number_asc (filter (of_recipe r) (timers db'))), t.
  split; [|split; [|split; [|split; [|split; [|split]]]]].
  - unfold add_timer, except_Exception, get_json, bind, lift, ret, jsonify.
    rewrite H1. unfold getitem. rewrite Hr, Hn, Hd, !get_field_or.
    cbn [adapt]. rewrite A3, A4.
    unfold insert_timer, nextval_timers, bind, lift.
    cbn [to_integer]. rewrite Hr4, Hn4, S3, S4.
    apply Z.leb_le in Hseq. rewrite Hseq.
    cbn [recipes timers recipes_id_seq timers_id_seq].
    unfold has_timer, has_recipe in *. cbn [recipes timers].
    rewrite Hfresh, Hhas. reflexivity.
  - unfold get_recipe, except_Exception, select_recipe, select_timers, bind, ret, jsonify.
    rewrite H2. cbn [recipes db']. rewrite Hfind. reflexivity.
  - reflexivity.
  - apply order_by_perm.
  - apply timers_sorted.
  - eapply Permutation_in; [apply order_by_perm|].
    apply filter_In. split.
    + cbn. apply in_or_app. right. now left.
    + cbn. apply Z.eqb_refl.
  - subst t. unfold timer_fields.
    cbn [Timer.id Timer.step_number Timer.step_description Timer.duration_minutes
         Timer.active bool_json].
    rewrite J3, J4. reflexivity.
Qed.

(** ** Payloads that are refused *)

(** C4, as the code has it.  A recipe payload without "title" and a
    timer payload without "recipe_id", "step_number" or
    "duration_minutes" are answered with status 500 and a body whose
    only field is "error" (for the recipe: the text of the KeyError,
    or the connection failure when there is no connection); the store
    is left exactly as it was, so no row is created. *)
Theorem missing_field_is_500 (w : world) (fields : list (string * json))
    (db : database) :
  (lookup "title" fields = None ->
   add_recipe w (Some (JObj fields)) db =
     ((JObj [("error",
              JStr (match get_db_connection w with
                    | Some _ => str (KeyError "title")
                    | None => "Database connection failed"
                    end))], 500), db)) /\
  (lookup "recipe_id" fields = None \/
   lookup "step_number" fields = None \/
   lookup "duration_minutes" fields = None ->
   exists msg,
     add_timer w (Some (JObj fields)) db = ((JObj [("error", JStr msg)], 500), db)).
Proof.
  split.
  - intros H. unfold add_recipe, except_Exception, get_json, bind, lift, ret,
      connection_failed, jsonify, getitem.
    rewrite H. destruct (get_db_connection w); reflexivity.
  - intros H. unfold add_timer, except_Exception, get_json, bind, lift, ret,
      connection_failed, jsonify, getitem.
    rewrite get_field_or.
    destruct (get_db_connection w); [|eexists; reflexivity].
    destruct (lookup "recipe_id" fields); [|eexists; reflexivity].
    destruct (lookup "step_number" fields); [|eexists; reflexivity].
    destruct (lookup "duration_minutes" fields); [|eexists; reflexivity].
    destruct H as [H | [H | H]]; discriminate.
Qed.


(** C9, as the code has it.  When [add_recipe] answers 201 the row it
    appended has as cooking_time and servings the integers the payload
    gives, 0 and 1 standing in for a field left out; when [add_timer]
    answers 201 the row it appended has as duration_minutes the
    integer the payload gives.  Nothing is checked about their sign: the
    constraints of the data model hold of the stored row when they hold
    of the numbers supplied. *)
Theorem stored_numbers_as_supplied (w : world) (fields : list (string * json))
    (db db' : database) (body' : json) :
  (add_recipe w (Some (JObj fields)) db = ((body', 201), db') ->
   exists r,
     recipes db' = recipes db ++ [r] /\
     (forall n, field_or "cooking_time" (JInt 0) fields = JInt n ->
                Recipe.cooking_time r = Some n) /\
     (forall n, field_or "servings" (JInt 1) fields = JInt n ->
                Recipe.servings r = Some n) /\
     (forall c s, field_or "cooking_time" (JInt 0) fields = JInt c ->
                  field_or "servings" (JInt 1) fields = JInt s ->
                  0 <= c -> 0 < s -> recipe_numbers_hold r)) /\
  (add_timer w (Some (JObj fields)) db = ((body', 201), db') ->
   exists t,
     timers db' = timers db ++ [t] /\
     (forall n, lookup "duration_minutes" fields = Some (JInt n) ->
                Timer.duration_minutes t = Some n) /\
     (forall n, lookup "duration_minutes" fields = Some (JInt n) ->
                0 <= n -> timer_numbers_hold t)).
Proof.
  split; intros Hrun.
  - destruct (add_recipe_cases w (Some (JObj fields)) db)
      as [H | (msg & db2 & H & _)]; [|rewrite H in Hrun; discriminate].
    destruct H as (fields' & v1 & v2 & v3 & v4 & v5 & p1 & p2 & p3 & p4 & p5 & ti & ing
                   & ins & ct & sv & H).
    destruct H as (Hb & _ & _ & _ & G4 & G5 & _ & _ & _ & A4 & A5 & _ & _ & _ & I4 & I5
                   & _ & _ & H).
    injection Hb as <-. rewrite H in Hrun. injection Hrun as _ <-.
    rewrite get_field_or in G4, G5. injection G4 as <-. injection G5 as <-.
    assert (Hct : forall n, field_or "cooking_time" (JInt 0) fields = JInt n ->
                            ct = Some n).
    { intros n E. rewrite E in A4. cbn in A4. injection A4 as <-. cbn in I4.
      destruct (in_int4 n); [|discriminate]. now injection I4 as <-. }
    assert (Hsv : forall n, field_or "servings" (JInt 1) fields = JInt n ->
                            sv = Some n).
    { intros n E. rewrite E in A5. cbn in A5. injection A5 as <-. cbn in I5.
      destruct (in_int4 n); [|discriminate]. now injection I5 as <-. }
    eexists. split; [reflexivity|].
    unfold recipe_numbers_hold. cbn [Recipe.cooking_time Recipe.servings].
    split; [exact Hct|]. split; [exact Hsv|].
    intros c s Ec Es Hc Hs. split; [exists c | exists s]; auto.
  - destruct (add_timer_cases w (Some (JObj fields)) db)
      as [H | (msg & db2 & H & _)]; [|rewrite H in Hrun; discriminate].
    destruct H as (fields' & v1 & v2 & v3 & v4 & p1 & p2 & p3 & p4 & rid & sn & sd & dm & H).
    destruct H as (Hb & _ & _ & _ & L4 & _ & _ & _ & A4 & _ & _ & _ & I4 & _ & _ & _ & H).
    injection Hb as <-. rewrite H in Hrun. injection Hrun as _ <-.
    assert (Hdm : forall n, lookup "duration_minutes" fields = Some (JInt n) ->
                            dm = Some n).
    { intros n E. rewrite E in L4. injection L4 as <-.
      cbn in A4. injection A4 as <-. cbn in I4.
      destruct (in_int4 n); [|discriminate]. now injection I4 as <-. }
    eexists. split; [reflexivity|].
    unfold timer_numbers_hold. cbn [Timer.duration_minutes].
    split; [exact Hdm|]. intros n E Hn. exists n. auto.
Qed.

(** ** Connections *)

Lemma nonempty_true (x : string) : nonempty x = true <-> x <> "".
Proof.
  unfold nonempty. rewrite negb_true_iff. split.
  - intros H ->. discriminate.
  - intros H. destruct (String.eqb_spec x ""); [contradiction | reflexivity].
Qed.

(** X1.  [get_db_connection] hands out a connection exactly when
    DB_HOST and DB_PASSWORD are set and not empty, DB_NAME and DB_USER
    (each "postgres" when not set) are not empty, and the server accepts
    the connection; the connection then uses these four values, port
    5432 and sslmode "require". *)
Theorem get_db_connection_some (w : world) (c : connection) :
  get_db_connection w = Some c <->
  exists h p,
    environ w "DB_HOST" = Some h /\
    environ w "DB_PASSWORD" = Some p /\
    h <> "" /\ p <> "" /\
    or_default "postgres" (environ w "DB_NAME") <> "" /\
    or_default "postgres" (environ w "DB_USER") <> "" /\
    accepts w = true /\
    c = Connection h (or_default "postgres" (environ w "DB_NAME"))
                   (or_default "postgres" (environ w "DB_USER")) p 5432 "require".
Proof.
  unfold get_db_connection. split.
  - destruct (environ w "DB_HOST") as [h|]; [|discriminate].
    destruct (environ w "DB_PASSWORD") as [p|]; [|discriminate].
    destruct (nonempty h && _ && _ && nonempty p) eqn:E; [|discriminate].
    destruct (accepts w); [|discriminate].
    intros [= <-]. cbn [negb] in *.
    repeat (apply andb_true_iff in E as [E ?]).
    exists h, p. repeat split; try apply nonempty_true; assumption.
  - intros (h & p & -> & -> & Hh & Hp & Hd & Hu & -> & ->).
    apply nonempty_true in Hh, Hp, Hd, Hu. now rewrite Hh, Hd, Hu, Hp.
Qed.

(** X2.  Without a connection every endpoint that touches the store
    answers 500 with [{"error": "Database connection failed"}] (for the
    two creating endpoints: whenever the body is readable JSON), db-test
    answers 500 with status "Failed", and the store is left as it
    was. *)
Theorem no_connection_is_500 (w : world) (db : database) :
  get_db_connection w = None ->
  get_recipes w db = (connection_failed, db) /\
  (forall i, get_recipe w i db = (connection_failed, db)) /\
  (forall i, toggle_timer w i db = (connection_failed, db)) /\
  (forall data, add_recipe w (Some data) db = (connection_failed, db)) /\
  (forall data, add_timer w (Some data) db = (connection_failed, db)) /\
  db_test w db =
    ((JObj [("status", JStr "Failed");
            ("error", JStr "Could not create connection")], 500), db).
Proof.
  intros H.
  unfold get_recipes, get_recipe, toggle_timer, add_recipe, add_timer, db_test,
    except_Exception, get_json, bind, ret, jsonify.
  rewrite H. repeat split.
Qed.

(** ** What the answers look like *)

(** X3.  The reading routes (health, db-test, list recipes, get recipe)
    hand the store back exactly as they found it, sequences included,
    whatever the world and whatever they answer. *)
Theorem reads_keep_the_store (w : world) (req : request) (db : database) :
  is_read req = true -> snd (serve w req db) = db.
Proof.
  destruct (reads_keep_store w db) as (Hh & Ht & Hl & Hg).
  destruct req; cbn; intros H; try discriminate; auto.
Qed.

(** X4.  The status of an answer is always one of 200, 201, 404 and
    500: health answers 200; db-test and the recipe list 200 or 500; the
    creating routes 201 or 500; get recipe and toggle 200, 404 or
    500. *)
Theorem status_codes (w : world) (req : request) (db : database) :
  let status := snd (fst (serve w req db)) in
  match req with
  | GET_health => status = 200
  | GET_db_test | GET_recipes => status = 200 \/ status = 500
  | POST_recipes _ | POST_timers _ => status = 201 \/ status = 500
  | GET_recipe _ | POST_toggle _ => status = 200 \/ status = 404 \/ status = 500
  end.
Proof.
  destruct req as [ | | |body|i|body|i]; cbn [serve].
  - reflexivity.
  - unfold db_test. destruct (get_db_connection w); cbn; auto.
  - unfold get_recipes, select_recipes. run; cbn; auto.
  - destruct (add_recipe_cases w body db) as [H | (msg & db' & -> & _)]; cbn; auto.
    destruct H as (? & ? & ? & ? & ? & ? & ? & ? & ? & ? & ? & ? & ? & ? & ? & ? & H).
    repeat match type of H with _ /\ _ => destruct H as [_ H] end. rewrite H. cbn. auto.
  - unfold get_recipe, select_recipe, select_timers. run; cbn; auto.
  - destruct (add_timer_cases w body db) as [H | (msg & db' & -> & _)]; cbn; auto.
    destruct H as (? & ? & ? & ? & ? & ? & ? & ? & ? & ? & ? & ? & ? & H).
    repeat match type of H with _ /\ _ => destruct H as [_ H] end. rewrite H. cbn. auto.
  - unfold toggle_timer, update_active. run; cbn; auto.
Qed.

(** X5.  On the five routes that touch the store, an answer that is
    neither 200 nor 201 has a body with the single field "error", whose
    value is a string. *)
Theorem failures_carry_only_error (w : world) (req : request) (db : database) :
  is_data_route req = true ->
  snd (fst (serve w req db)) <> 200 ->
  snd (fst (serve w req db)) <> 201 ->
  exists msg, fst (fst (serve w req db)) = JObj [("error", JStr msg)].
Proof.
  destruct req as [ | | |body|i|body|i]; cbn [serve is_data_route];
    intros Hroute H200 H201; try discriminate.
  - revert H200. unfold get_recipes, select_recipes. run; cbn; intros; eauto.
    contradiction.
  - destruct (add_recipe_cases w body db) as [H | (msg & db' & Hrun & _)].
    + destruct H as (? & ? & ? & ? & ? & ? & ? & ? & ? & ? & ? & ? & ? & ? & ? & ? & H).
      repeat match type of H with _ /\ _ => destruct H as [_ H] end.
      rewrite H in H201. now elim H201.
    + rewrite Hrun. cbn. eauto.
  - revert H200. unfold get_recipe, select_recipe, select_timers. run; cbn; intros; eauto.
    contradiction.
  - destruct (add_timer_cases w body db) as [H | (msg & db' & Hrun & _)].
    + destruct H as (? & ? & ? & ? & ? & ? & ? & ? & ? & ? & ? & ? & ? & H).
      repeat match type of H with _ /\ _ => destruct H as [_ H] end.
      rewrite H in H201. now elim H201.
    + rewrite Hrun. cbn. eauto.
  - revert H200. unfold toggle_timer, update_active. run; cbn; intros; eauto.
    contradiction.
Qed.

(** X6.  A body that cannot be read as JSON, or that is JSON but no
    object (null, a number, a string, a list), makes both creating
    routes answer 500 with an error body and leave the store as it
    was. *)
Theorem body_must_be_an_object (w : world) (body : option json) (db : database) :
  (body = None \/ exists v, body = Some v /\ is_object v = false) ->
  (exists msg, add_recipe w body db = ((JObj [("error", JStr msg)], 500), db)) /\
  (exists msg, add_timer w body db = ((JObj [("error", JStr msg)], 500), db)).
Proof.
  intros [-> | (v & -> & Hv)];
    unfold add_recipe, add_timer, except_Exception, get_json, bind, lift, ret, raise,
      connection_failed, jsonify, getitem.
  - split; eexists; reflexivity.
  - destruct (get_db_connection w); [|split; eexists; reflexivity].
    destruct v; try discriminate; split; eexists; reflexivity.
Qed.

(** ** Whole sessions *)

Lemma serve_sequences_grow (w : world) (req : request) (db : database) :
  recipes_id_seq db <= recipes_id_seq (snd (serve w req db)) /\
  timers_id_seq db <= timers_id_seq (snd (serve w req db)).
Proof.
  destruct (reads_keep_store w db) as (Hh & Ht & Hl & Hg).
  destruct req as [ | | |body|j|body|j]; cbn [serve];
    rewrite ?Hh, ?Ht, ?Hl, ?Hg; try lia.
  - destruct (add_recipe_cases w body db) as [H | (msg & db' & -> & _ & _ & Hs & Hs')].
    + destruct H as (? & ? & ? & ? & ? & ? & ? & ? & ? & ? & ? & ? & ? & ? & ? & ? & H).
      repeat match type of H with _ /\ _ => destruct H as [_ H] end. rewrite H. cbn. lia.
    + cbn. lia.
  - destruct (add_timer_cases w body db) as [H | (msg & db' & -> & _ & _ & Hs & Hs')].
    + destruct H as (? & ? & ? & ? & ? & ? & ? & ? & ? & ? & ? & ? & ? & H).
      repeat match type of H with _ /\ _ => destruct H as [_ H] end. rewrite H. cbn. lia.
    + cbn. lia.
  - destruct (toggle_timer_store w j db) as [-> | ->]; cbn; lia.
Qed.

Lemma session_sequences_grow (reqs : list (world * request)) (db : database) :
  recipes_id_seq db <= recipes_id_seq (session reqs db) /\
  timers_id_seq db <= timers_id_seq (session reqs db).
Proof.
  revert db. induction reqs as [|[w req] reqs IH]; intros db; cbn; [lia|].
  destruct (serve_sequences_grow w req db), (IH (snd (serve w req db))). lia.
Qed.

(** X7.  Whatever requests are served, in whatever worlds, a store that
    satisfies the constraints of the schema (unique ids below their
    sequence, timers referring to stored recipes or to none, no null
    flag) still satisfies them afterwards. *)
Theorem sessions_stay_consistent (reqs : list (world * request)) (db : database) :
  consistent db -> consistent (session reqs db).
Proof.
  revert db. induction reqs as [|[w req] reqs IH]; intros db C; cbn; [exact C|].
  apply IH. now apply serve_consistent.
Qed.

(** X8.  An id is handed out once: when [add_recipe] answers 201 with
    an id and, after any further requests, answers 201 again, the
    second id is larger; the same holds of [add_timer]. *)
Theorem ids_are_never_reused (w1 w2 : world) (b1 b2 : option json)
    (reqs : list (world * request)) (db db1 db2 : database) (id1 id2 : Z) :
  (add_recipe w1 b1 db =
     ((JObj [("message", JStr "Recept toegevoegd"); ("recipe_id", JInt id1)], 201), db1) ->
   add_recipe w2 b2 (session reqs db1) =
     ((JObj [("message", JStr "Recept toegevoegd"); ("recipe_id", JInt id2)], 201), db2) ->
   id1 < id2) /\
  (add_timer w1 b1 db =
     ((JObj [("message", JStr "Timer toegevoegd"); ("timer_id", JInt id1)], 201), db1) ->
   add_timer w2 b2 (session reqs db1) =
     ((JObj [("message", JStr "Timer toegevoegd"); ("timer_id", JInt id2)], 201), db2) ->
   id1 < id2).
Proof.
  pose proof (session_sequences_grow reqs db1) as [Hr Ht].
  split; intros R1 R2.
  - destruct (add_recipe_cases w1 b1 db) as [H | (msg & d & H & _)];
      [|rewrite H in R1; discriminate].
    destruct H as (? & ? & ? & ? & ? & ? & ? & ? & ? & ? & ? & ? & ? & ? & ? & ? & H).
    repeat match type of H with _ /\ _ => destruct H as [_ H] end.
    rewrite H in R1. injection R1 as Hid Hdb.
    destruct (add_recipe_cases w2 b2 (session reqs db1)) as [H' | (msg & d & H' & _)];
      [|rewrite H' in R2; discriminate].
    destruct H' as (? & ? & ? & ? & ? & ? & ? & ? & ? & ? & ? & ? & ? & ? & ? & ? & H').
    repeat match type of H' with _ /\ _ => destruct H' as [_ H'] end.
    rewrite H' in R2. injection R2 as <- _. subst db1 id1. cbn in Hr. lia.
  - destruct (add_timer_cases w1 b1 db) as [H | (msg & d & H & _)];
      [|rewrite H in R1; discriminate].
    destruct H as (? & ? & ? & ? & ? & ? & ? & ? & ? & ? & ? & ? & ? & H).
    repeat match type of H with _ /\ _ => destruct H as [_ H] end.
    rewrite H in R1. injection R1 as Hid Hdb.
    destruct (add_timer_cases w2 b2 (session reqs db1)) as [H' | (msg & d & H' & _)];
      [|rewrite H' in R2; discriminate].
    destruct H' as (? & ? & ? & ? & ? & ? & ? & ? & ? & ? & ? & ? & ? & H').
    repeat match type of H' with _ /\ _ => destruct H' as [_ H'] end.
    rewrite H' in R2. injection R2 as <- _. subst db1 id1. cbn in Ht. lia.
Qed.

(** ** What a payload can and cannot say *)

(** X9.  [add_recipe] reads the keys title, ingredients, instructions,
    cooking_time and servings, and [add_timer] reads recipe_id,
    step_number, step_description and duration_minutes, and nothing
    else: two payloads that agree on these keys get the same answer and
    leave the same store, so no payload can choose an id, a created_at
    or a timer's flag. *)
Theorem other_keys_are_ignored (w : world) (f1 f2 : list (string * json))
    (db : database) :
  (agree_on recipe_payload_keys f1 f2 ->
   add_recipe w (Some (JObj f1)) db = add_recipe w (Some (JObj f2)) db) /\
  (agree_on timer_payload_keys f1 f2 ->
   add_timer w (Some (JObj f1)) db = add_timer w (Some (JObj f2)) db).
Proof.
  unfold agree_on, recipe_payload_keys, timer_payload_keys. split; intros H.
  - inversion_clear H as [|? ? E1 H']. inversion_clear H' as [|? ? E2 H].
    inversion_clear H as [|? ? E3 H']. inversion_clear H' as [|? ? E4 H].
    inversion_clear H as [|? ? E5 _].
    unfold add_recipe, except_Exception, get_json, bind, lift, ret, getitem, get.
    now rewrite E1, E2, E3, E4, E5.
  - inversion_clear H as [|? ? E1 H']. inversion_clear H' as [|? ? E2 H].
    inversion_clear H as [|? ? E3 H']. inversion_clear H' as [|? ? E4 _].
    unfold add_timer, except_Exception, get_json, bind, lift, ret, getitem, get.
    now rewrite E1, E2, E3, E4.
Qed.

(** X10.  The NOT NULL columns: a recipe payload whose title is null
    and a timer payload whose step_number is null are answered with 500
    and an error body, and neither table gets a row. *)
Theorem null_in_required_column_is_500 (w : world) (fields : list (string * json))
    (db : database) :
  (lookup "title" fields = Some JNull ->
   exists msg db',
     add_recipe w (Some (JObj fields)) db = ((JObj [("error", JStr msg)], 500), db') /\
     recipes db' = recipes db /\ timers db' = timers db) /\
  (lookup "step_number" fields = Some JNull ->
   exists msg db',
     add_timer w (Some (JObj fields)) db = ((JObj [("error", JStr msg)], 500), db') /\
     recipes db' = recipes db /\ timers db' = timers db).
Proof.
  split; intros Hnull.
  - destruct (add_recipe_cases w (Some (JObj fields)) db)
      as [H | (msg & db' & H & Hr & Ht & _)]; [|eauto].
    success_of H.
    destruct H as (Hb & L1 & _ & _ & _ & _ & A1 & _ & _ & _ & _ & I1 & _).
    injection Hb as <-. rewrite Hnull in L1. injection L1 as <-.
    cbn in A1. injection A1 as <-. discriminate I1.
  - destruct (add_timer_cases w (Some (JObj fields)) db)
      as [H | (msg & db' & H & Hr & Ht & _)]; [|eauto].
    success_of H.
    destruct H as (Hb & _ & L2 & _ & _ & _ & A2 & _ & _ & _ & I2 & _).
    injection Hb as <-. rewrite Hnull in L2. injection L2 as <-.
    cbn in A2. injection A2 as <-. discriminate I2.
Qed.

(** X11.  The INTEGER columns hold 32 bits: a recipe payload whose
    cooking_time or servings, or a timer payload whose recipe_id,
    step_number or duration_minutes, is an integer outside
    -2147483648 .. 2147483647 is answered with 500 and an error body,
    and neither table gets a row. *)
Theorem out_of_range_integer_is_500 (w : world) (fields : list (string * json))
    (db : database) (n : Z) :
  in_int4 n = false ->
  (lookup "cooking_time" fields = Some (JInt n) \/
   lookup "servings" fields = Some (JInt n) ->
   exists msg db',
     add_recipe w (Some (JObj fields)) db = ((JObj [("error", JStr msg)], 500), db') /\
     recipes db' = recipes db /\ timers db' = timers db) /\
  (lookup "recipe_id" fields = Some (JInt n) \/
   lookup "step_number" fields = Some (JInt n) \/
   lookup "duration_minutes" fields = Some (JInt n) ->
   exists msg db',
     add_timer w (Some (JObj fields)) db = ((JObj [("error", JStr msg)], 500), db') /\
     recipes db' = recipes db /\ timers db' = timers db).
Proof.
  intros Hn.
  assert (Hint : forall column v p o,
             v = JInt n -> adapt v = Returns p -> to_integer column p = Returns o -> False).
  { intros column v p o -> A I. cbn in A. injection A as <-. cbn in I.
    rewrite Hn in I. discriminate. }
  split; intros Hbad.
  - destruct (add_recipe_cases w (Some (JObj fields)) db)
      as [H | (msg & db' & H & Hr & Ht & _)]; [|eauto].
    success_of H.
    destruct H as (Hb & _ & _ & _ & G4 & G5 & _ & _ & _ & A4 & A5 & _ & _ & _ & I4 & I5 & _).
    injection Hb as <-. unfold get in G4, G5.
    destruct Hbad as [L | L]; rewrite L in *.
    + injection G4 as <-. now elim (Hint _ _ _ _ eq_refl A4 I4).
    + injection G5 as <-. now elim (Hint _ _ _ _ eq_refl A5 I5).
  - destruct (add_timer_cases w (Some (JObj fields)) db)
      as [H | (msg & db' & H & Hr & Ht & _)]; [|eauto].
    success_of H.
    destruct H as (Hb & L1 & L2 & _ & L4 & A1 & A2 & _ & A4 & I1 & I2 & _ & I4 & _).
    injection Hb as <-.
    destruct Hbad as [L | [L | L]]; rewrite L in *.
    + injection L1 as <-. now elim (Hint _ _ _ _ eq_refl A1 I1).
    + injection L2 as <-. now elim (Hint _ _ _ _ eq_refl A2 I2).
    + injection L4 as <-. now elim (Hint _ _ _ _ eq_refl A4 I4).
Qed.

(** X12.  The title column is VARCHAR(255): a recipe payload whose
    title is a string of more than 255 characters, with something other
    than spaces beyond the 255th, is answered with 500 and an error
    body, and neither table gets a row. *)
Theorem long_title_is_500 (w : world) (fields : list (string * json))
    (db : database) (title : string) :
  lookup "title" fields = Some (JStr title) ->
  (255 < String.length title)%nat ->
  all_spaces (substring 255 (String.length title - 255) title) = false ->
  exists msg db',
    add_recipe w (Some (JObj fields)) db = ((JObj [("error", JStr msg)], 500), db') /\
    recipes db' = recipes db /\ timers db' = timers db.
Proof.
  intros Ht Hlen Hsp.
  destruct (add_recipe_cases w (Some (JObj fields)) db)
    as [H | (msg & db' & H & Hr & Ht' & _)]; [|eauto].
  success_of H.
  destruct H as (Hb & L1 & _ & _ & _ & _ & A1 & _ & _ & _ & _ & I1 & _).
  injection Hb as <-. rewrite Ht in L1. injection L1 as <-.
  cbn in A1. destruct (has_nul title); [discriminate|]. injection A1 as <-.
  unfold to_varchar, to_text, varchar in I1.
  apply Nat.leb_gt in Hlen. rewrite Hlen, Hsp in I1. discriminate.
Qed.

(** ** How the routes compose *)

Lemma get_recipes_reads_recipes (w : world) (db1 db2 : database) :
  recipes db1 = recipes db2 ->
  fst (get_recipes w db1) = fst (get_recipes w db2).
Proof.
  intros H. unfold get_recipes, except_Exception, select_recipes, bind, ret.
  destruct (get_db_connection w); [|reflexivity]. cbn. now rewrite H.
Qed.

Lemma get_recipe_reads (w : world) (i : Z) (db1 db2 : database) :
  find (fun r => Recipe.id r =? i) (recipes db1)
    = find (fun r => Recipe.id r =? i) (recipes db2) ->
  filter (of_recipe i) (timers db1) = filter (of_recipe i) (timers db2) ->
  fst (get_recipe w i db1) = fst (get_recipe w i db2).
Proof.
  intros Hr Ht. unfold get_recipe, except_Exception, select_recipe, select_timers, bind, ret.
  destruct (get_db_connection w); [|reflexivity]. cbn. rewrite Hr.
  destruct (find _ (recipes db2)); [|reflexivity]. cbn. now rewrite Ht.
Qed.

Lemma find_app_present {A : Type} (p : A -> bool) (l l' : list A) :
  existsb p l = true -> find p (l ++ l') = find p l.
Proof.
  induction l as [|x l IH]; cbn; [discriminate|].
  destruct (p x); [reflexivity | exact IH].
Qed.

(** X13.  With a connection for both requests: after [toggle_timer]
    flips a stored timer that belongs to a stored recipe, [get_recipe]
    on that recipe answers 200 and lists the timer with its new flag. *)
Theorem toggle_timer_then_get_recipe (w1 w2 : world) (c1 c2 : connection)
    (db : database) (i r : Z) (t : Timer.row) (b : bool) :
  get_db_connection w1 = Some c1 ->
  get_db_connection w2 = Some c2 ->
  timer_by_id i db = Some t ->
  Timer.active t = Some b ->
  Timer.recipe_id t = Some r ->
  has_recipe r db = true ->
  exists db1 body rows,
    toggle_timer w1 i db = ((JObj [("active", JBool (negb b))], 200), db1) /\
    get_recipe w2 r db1 = ((JObj body, 200), db1) /\
    lookup "timers" body = Some (JArr (map (fun t => JObj (timer_fields t)) rows)) /\
    In (Timer.set_active (Some (negb b)) t) rows.
Proof.
  intros H1 H2 Ht Hb Hr Hhas.
  destruct (find_present r db Hhas) as (recipe & Hfind).
  exists (Database (recipes db) (after_toggle i (timers db))
                   (recipes_id_seq db) (timers_id_seq db)).
  eexists.
  exists (order_by step_number_asc
            (filter (of_recipe r) (after_toggle i (timers db)))).
  split; [|split; [|split]].
  - rewrite (toggle_timer_connected w1 c1 i db H1), Ht, Hb. reflexivity.
  - unfold get_recipe, except_Exception, select_recipe, select_timers, bind, ret, jsonify.
    rewrite H2. cbn [recipes timers]. rewrite Hfind. reflexivity.
  - reflexivity.
  - eapply Permutation_in; [apply order_by_perm|].
    unfold timer_by_id in Ht. apply find_some in Ht as [Hin Hid].
    apply filter_In. split.
    + apply (Permutation_in _ (after_toggle_perm i (timers db))).
      replace (Timer.set_active (Some (negb b)) t) with (toggled i t).
      * now apply in_map.
      * unfold toggled. now rewrite Hid, Hb.
    + unfold of_recipe. cbn. rewrite Hr. apply Z.eqb_refl.
Qed.

(** X14.  When [add_recipe] has answered 201, [get_recipes] (with a
    connection) answers 200 with the rows stored before together with
    the new one, whose id is the one [add_recipe] returned and whose
    created_at is the server's time of that request. *)
Theorem add_recipe_then_get_recipes (w1 w2 : world) (c2 : connection)
    (body : option json) (answer : json) (db db1 : database) :
  add_recipe w1 body db = ((answer, 201), db1) ->
  get_db_connection w2 = Some c2 ->
  exists r rows,
    answer = JObj [("message", JStr "Recept toegevoegd");
                   ("recipe_id", JInt (Recipe.id r))] /\
    Recipe.created_at r = Some (current_timestamp w1) /\
    get_recipes w2 db1 =
      ((JArr (map (fun r => JObj (recipe_fields r)) rows), 200), db1) /\
    Permutation (r :: recipes db) rows.
Proof.
  intros Hadd H2.
  destruct (add_recipe_cases w1 body db) as [H | (msg & d & H & _)];
    [|rewrite H in Hadd; discriminate].
  destruct H as (? & ? & ? & ? & ? & ? & ? & ? & ? & ? & ? & ti & ing & ins & ct & sv & H).
  repeat match type of H with _ /\ _ => destruct H as [_ H] end.
  rewrite H in Hadd. injection Hadd as <- <-.
  exists (Recipe.Row (recipes_id_seq db) ti ing ins ct sv (Some (current_timestamp w1))).
  exists (order_by created_at_desc
            (recipes db ++ [Recipe.Row (recipes_id_seq db) ti ing ins ct sv
                                       (Some (current_timestamp w1))])).
  split; [reflexivity|]. split; [reflexivity|]. split.
  - unfold get_recipes, except_Exception, select_recipes, bind, ret, jsonify.
    rewrite H2. reflexivity.
  - rewrite <- order_by_perm. apply Permutation_cons_append.
Qed.

(** X15.  The recipe list does not depend on timers: what [get_recipes]
    answers is the same before and after any [add_timer] and any
    [toggle_timer]. *)
Theorem timer_routes_keep_the_recipe_list (w w' : world) (db : database) :
  (forall body, fst (get_recipes w (snd (add_timer w' body db))) = fst (get_recipes w db)) /\
  (forall i, fst (get_recipes w (snd (toggle_timer w' i db))) = fst (get_recipes w db)).
Proof.
  split.
  - intros body. apply get_recipes_reads_recipes.
    destruct (add_timer_cases w' body db) as [H | (msg & d & -> & Hr & _)]; [|exact Hr].
    success_of H. repeat match type of H with _ /\ _ => destruct H as [_ H] end.
    now rewrite H.
  - intros i. apply get_recipes_reads_recipes.
    now destruct (toggle_timer_store w' i db) as [-> | ->].
Qed.

(** X16.  Creating leaves the other answers alone: what [get_recipe]
    answers for a stored recipe is the same before and after any
    [add_recipe], and what it answers for any id is the same before and
    after an [add_timer] whose payload names another recipe. *)
Theorem creating_keeps_other_answers (w w' : world) (db : database) (i : Z) :
  (has_recipe i db = true ->
   forall body,
     fst (get_recipe w i (snd (add_recipe w' body db))) = fst (get_recipe w i db)) /\
  (forall fields r,
     lookup "recipe_id" fields = Some (JInt r) -> r <> i ->
     fst (get_recipe w i (snd (add_timer w' (Some (JObj fields)) db)))
       = fst (get_recipe w i db)).
Proof.
  split.
  - intros Hhas body.
    destruct (add_recipe_cases w' body db) as [H | (msg & d & -> & Hr & Ht & _)].
    + success_of H. repeat match type of H with _ /\ _ => destruct H as [_ H] end.
      rewrite H. apply get_recipe_reads; cbn [snd recipes timers]; [|reflexivity].
      now apply find_app_present.
    + apply get_recipe_reads; cbn [snd]; now rewrite ?Hr, ?Ht.
  - intros fields r Hl Hne.
    destruct (add_timer_cases w' (Some (JObj fields)) db)
      as [H | (msg & d & -> & Hr & Ht & _)].
    + destruct H as (fields' & v1 & ? & ? & ? & p1 & ? & ? & ? & rid & ? & ? & ? & H).
      destruct H as (Hb & L1 & _ & _ & _ & A1 & _ & _ & _ & I1 & H).
      repeat match type of H with _ /\ _ => destruct H as [_ H] end.
      injection Hb as <-. rewrite Hl in L1. injection L1 as <-.
      cbn in A1. injection A1 as <-. cbn in I1.
      destruct (in_int4 r); [|discriminate]. injection I1 as <-.
      rewrite H. apply get_recipe_reads; cbn [snd recipes timers]; [reflexivity|].
      rewrite filter_app. cbn. unfold of_recipe at 2. cbn.
      destruct (Z.eqb_spec r i); [contradiction|]. apply app_nil_r.
    + apply get_recipe_reads; cbn [snd]; now rewrite ?Hr, ?Ht.
Qed.

Lemma toggled_commute (i j : Z) (t : Timer.row) :
  toggled j (toggled i t) = toggled i (toggled j t).
Proof.
  unfold toggled at 1 3. rewrite !toggled_id.
  unfold toggled.
  destruct (Timer.id t =? i), (Timer.id t =? j); reflexivity.
Qed.

(** X17.  Toggles do not get in each other's way: after two
    [toggle_timer] requests, in either order, recipes and sequences are
    the same, every timer id stands for the same row, and the timers
    table holds the same rows (in whatever order); and a toggle of one
    id does not change what a toggle of another id answers. *)
Theorem toggles_commute (w1 w2 : world) (i j : Z) (db : database) :
  (recipes (snd (toggle_timer w2 j (snd (toggle_timer w1 i db))))
     = recipes (snd (toggle_timer w1 i (snd (toggle_timer w2 j db)))) /\
   recipes_id_seq (snd (toggle_timer w2 j (snd (toggle_timer w1 i db))))
     = recipes_id_seq (snd (toggle_timer w1 i (snd (toggle_timer w2 j db)))) /\
   timers_id_seq (snd (toggle_timer w2 j (snd (toggle_timer w1 i db))))
     = timers_id_seq (snd (toggle_timer w1 i (snd (toggle_timer w2 j db)))) /\
   (forall k,
       timer_by_id k (snd (toggle_timer w2 j (snd (toggle_timer w1 i db))))
         = timer_by_id k (snd (toggle_timer w1 i (snd (toggle_timer w2 j db))))) /\
   Permutation (timers (snd (toggle_timer w2 j (snd (toggle_timer w1 i db)))))
               (timers (snd (toggle_timer w1 i (snd (toggle_timer w2 j db)))))) /\
  (i <> j ->
   fst (toggle_timer w2 j (snd (toggle_timer w1 i db))) = fst (toggle_timer w2 j db)).
Proof.
  destruct (get_db_connection w1) as [c1|] eqn:H1;
    destruct (get_db_connection w2) as [c2|] eqn:H2.
  - rewrite !(toggle_timer_connected w1 c1), !(toggle_timer_connected w2 c2) by assumption.
    cbn [snd fst recipes timers recipes_id_seq timers_id_seq]. split.
    + split; [reflexivity|]. split; [reflexivity|]. split; [reflexivity|]. split.
      * intros k. destruct (Z.eq_dec i j) as [->|Hij]; [reflexivity|].
        unfold timer_by_id. cbn [timers]. rewrite !find_after_toggle.
        destruct (Z.eqb_spec i j); [contradiction|].
        destruct (Z.eqb_spec j i); [congruence|].
        destruct (Z.eqb_spec j k), (Z.eqb_spec i k); subst; try congruence; reflexivity.
      * rewrite <- (after_toggle_perm j (after_toggle i (timers db))).
        rewrite <- (after_toggle_perm i (after_toggle j (timers db))).
        rewrite <- (Permutation_map (toggled j) (after_toggle_perm i (timers db))).
        rewrite <- (Permutation_map (toggled i) (after_toggle_perm j (timers db))).
        rewrite !map_map.
        erewrite map_ext; [reflexivity|]. intros t. apply toggled_commute.
    + intros Hne. unfold timer_by_id. cbn [timers]. rewrite find_after_toggle.
      destruct (Z.eqb_spec i j); [contradiction | reflexivity].
  - repeat first [ rewrite (toggle_timer_offline w2 H2)
                   | progress cbn [snd fst] ].
    repeat split; auto.
  - repeat first [ rewrite (toggle_timer_offline w1 H1)
                   | progress cbn [snd fst] ].
    repeat split; auto.
  - repeat first [ rewrite (toggle_timer_offline w1 H1)
                   | rewrite (toggle_timer_offline w2 H2)
                   | progress cbn [snd fst] ].
    repeat split; auto.
Qed.

(** X18.  A timer starts inactive: when [add_timer] has answered 201
    with a timer_id, the first [toggle_timer] on that id (with a
    connection) answers 200 with active true. *)
Theorem new_timer_toggles_to_true (w1 w2 : world) (c2 : connection)
    (body : option json) (db db1 : database) (timer_id : Z) :
  add_timer w1 body db =
    ((JObj [("message", JStr "Timer toegevoegd"); ("timer_id", JInt timer_id)], 201),
     db1) ->
  get_db_connection w2 = Some c2 ->
  fst (toggle_timer w2 timer_id db1) = (JObj [("active", JBool true)], 200).
Proof.
  intros Hadd H2.
  destruct (add_timer_cases w1 body db) as [H | (msg & d & H & _)];
    [|rewrite H in Hadd; discriminate].
  success_of H.
  destruct H as (_ & _ & _ & _ & _ & _ & _ & _ & _ & _ & _ & _ & _ & _ & Hfresh & _ & H).
  rewrite H in Hadd. injection Hadd as <- <-.
  rewrite (toggle_timer_connected w2 c2 _ _ H2). unfold timer_by_id. cbn [fst timers].
  unfold has_timer in Hfresh.
  rewrite (find_snoc_fresh _ _ _ Hfresh) by (cbn; apply Z.eqb_refl).
  reflexivity.
Qed.

(** X19.  With a connection, [get_recipe] answers 200 exactly for the
    ids of stored recipes and 404 for all others, and [toggle_timer]
    answers 200 exactly for the ids of stored timers and 404 for all
    others. *)
Theorem found_iff_stored (w : world) (c : connection) (db : database) (i : Z) :
  get_db_connection w = Some c ->
  (snd (fst (get_recipe w i db)) = 200 <-> has_recipe i db = true) /\
  (snd (fst (get_recipe w i db)) = 404 <-> has_recipe i db = false) /\
  (snd (fst (toggle_timer w i db)) = 200 <-> has_timer i db = true) /\
  (snd (fst (toggle_timer w i db)) = 404 <-> has_timer i db = false).
Proof.
  intros H.
  assert (Hr : snd (fst (get_recipe w i db)) = if has_recipe i db then 200 else 404).
  { destruct (has_recipe i db) eqn:E.
    - destruct (find_present i db E) as (recipe & Hfind).
      unfold get_recipe, except_Exception, select_recipe, select_timers, bind, ret.
      rewrite H. cbn. now rewrite Hfind.
    - unfold get_recipe, except_Exception, select_recipe, bind, ret.
      rewrite H. unfold has_recipe in E. cbn. now rewrite (find_absent _ _ E). }
  assert (Ht : snd (fst (toggle_timer w i db)) = if has_timer i db then 200 else 404).
  { rewrite (toggle_timer_connected w c i db H). unfold timer_by_id, has_timer.
    induction (timers db) as [|t l IH]; cbn; [reflexivity|].
    destruct (Timer.id t =? i); [reflexivity | exact IH]. }
  rewrite Hr, Ht.
  destruct (has_recipe i db), (has_timer i db); repeat split; intros; congruence.
Qed.

(** ** Start-up *)

(** X20.  [init_db] can be run at every start: running it twice gives
    what running it once gives, and on a server where both tables are
    there it changes nothing, so rows and sequences survive. *)
Theorem init_db_on_again (w : world) (s : server) :
  init_db_on w (init_db_on w s) = init_db_on w s /\
  (forall db, store_of s = Some db -> init_db_on w s = s).
Proof.
  unfold init_db_on, store_of. split.
  - destruct (get_db_connection w); [|reflexivity].
    destruct s as [[r|] [t|]]; reflexivity.
  - intros db. destruct (get_db_connection w); [|reflexivity].
    destruct s as [[[rs rseq]|] [[ts tseq]|]]; cbn; intros H; try discriminate.
    reflexivity.
Qed.

(** X21.  With a connection, after [init_db] both tables are there, the
    tables that were there being kept and the missing ones empty with
    their sequence at 1; on a server without tables the result is the
    empty store.  Without a connection [init_db] changes nothing. *)
Theorem init_db_on_makes_the_schema (w : world) (s : server) :
  (forall c, get_db_connection w = Some c ->
     (exists db, store_of (init_db_on w s) = Some db) /\
     (forall rows, recipes_table s = Some rows ->
                   recipes_table (init_db_on w s) = Some rows) /\
     (forall rows, timers_table s = Some rows ->
                   timers_table (init_db_on w s) = Some rows) /\
     (recipes_table s = None -> recipes_table (init_db_on w s) = Some ([], 1)) /\
     (timers_table s = None -> timers_table (init_db_on w s) = Some ([], 1)) /\
     store_of (init_db_on w (Server None None)) = Some init_db) /\
  (get_db_connection w = None -> init_db_on w s = s).
Proof.
  unfold init_db_on, store_of. split.
  - intros c ->. cbn. split; [|repeat split].
    + destruct s as [[[rs rseq]|] [[ts tseq]|]]; cbn; eauto.
    + now intros rows ->.
    + now intros rows ->.
    + now intros ->.
    + now intros ->.
  - now intros ->.
Qed.

End Service.

(** ** The session of the sample data, run *)

Lemma consistent_pasta_db : consistent pasta_db.
Proof.
  exact (serve_consistent example_isoformat example_str example_int4in example_text_of
           (example_world 100) (POST_recipes (Some (JObj pasta))) init_db
           consistent_init_db).
Qed.

Lemma consistent_timed_db : consistent timed_db.
Proof.
  exact (serve_consistent example_isoformat example_str example_int4in example_text_of
           (example_world 200) (POST_timers (Some (JObj first_step))) pasta_db
           consistent_pasta_db).
Qed.

(** Where validity ends: a title of 256 characters does not fit
    VARCHAR(255); the insert is refused and nothing is stored. *)
Lemma long_title_is_refused :
  valid_recipe [("title", JStr long_title)] = false /\
  add_recipe example_str example_int4in example_text_of (example_world 100)
             (Some (JObj [("title", JStr long_title)])) init_db =
    ((JObj [("error", JStr (example_str (DataError "title")))], 500), init_db).
Proof. split; reflexivity. Qed.

(** Posting [pasta] and reading recipe 1 back. *)
Lemma add_recipe_then_get_recipe_pasta :
  exists recipe_id db',
    add_recipe example_str example_int4in example_text_of (example_world 100)
               (Some (JObj pasta)) init_db =
      ((JObj [("message", JStr "Recept toegevoegd");
              ("recipe_id", JInt recipe_id)], 201), db') /\
    get_recipe example_isoformat example_str (example_world 150) recipe_id db' =
      ((JObj [("id", JInt recipe_id);
              ("title", JStr "Pasta");
              ("ingredients", JStr "");
              ("instructions", JStr "");
              ("cooking_time", JInt 20);
              ("servings", JInt 2);
              ("created_at", JStr (example_isoformat 100));
              ("timers", JArr [])], 200), db').
Proof.
  destruct (add_recipe_then_get_recipe example_isoformat example_str example_int4in
              example_text_of (example_world 100) (example_world 150)
              example_connection example_connection init_db pasta)
    as (recipe_id & db' & title & Htitle & Hadd & Hget).
  - reflexivity.
  - reflexivity.
  - exact consistent_init_db.
  - unfold int4_max. cbn. lia.
  - reflexivity.
  - exists recipe_id, db'. injection Htitle as <-.
    split; [exact Hadd | exact Hget].
Defined.

(** Toggling timer 1 of [two_timers_db] twice. *)
Lemma toggle_timer_twice_first_step :
  exists db1 db2,
    toggle_timer example_str (example_world 300) 1 two_timers_db =
      ((JObj [("active", JBool true)], 200), db1) /\
    timer_by_id 1 db1 = Some (Timer.set_active (Some true) first_step_row) /\
    toggle_timer example_str (example_world 400) 1 db1 =
      ((JObj [("active", JBool false)], 200), db2) /\
    timer_by_id 1 db2 = Some first_step_row /\
    (forall j, timer_by_id j db2 = timer_by_id j two_timers_db) /\
    Permutation (timers two_timers_db) (timers db2) /\
    recipes db2 = recipes two_timers_db /\
    recipes_id_seq db2 = recipes_id_seq two_timers_db /\
    timers_id_seq db2 = timers_id_seq two_timers_db.
Proof.
  apply (toggle_timer_twice example_str (example_world 300) (example_world 400)
           example_connection example_connection two_timers_db 1 first_step_row false);
    reflexivity.
Defined.

(** The same two toggles, run: the new version of the row is met after
    the row that was not touched. *)
Lemma toggle_timer_twice_run :
  timers (snd (toggle_timer example_str (example_world 300) 1 two_timers_db))
    = [second_step_row; Timer.set_active (Some true) first_step_row] /\
  timers (snd (toggle_timer example_str (example_world 400) 1
                 (snd (toggle_timer example_str (example_world 300) 1 two_timers_db))))
    = [second_step_row; first_step_row].
Proof. split; reflexivity. Qed.

(** What toggling timer 1 leaves of the two timers of [two_timers_db]. *)
Lemma toggle_timer_only_active_two_timers :
  (exists kept,
      Permutation kept
        (timers (snd (toggle_timer example_str (example_world 300) 1 two_timers_db))) /\
      Forall2 (fun t t' => same_but_active t t' /\ (Timer.id t <> 1 -> t' = t))
              (timers two_timers_db) kept) /\
  timer_by_id 2 (snd (toggle_timer example_str (example_world 300) 1 two_timers_db))
    = timer_by_id 2 two_timers_db.
Proof.
  destruct (toggle_timer_only_active example_isoformat example_str example_int4in
              example_text_of (example_world 300) 1 two_timers_db)
    as (_ & _ & _ & Hkept & Hother & _).
  split; [exact Hkept | apply Hother; discriminate].
Defined.

(** Asking [pasta_db] for recipe 7 and toggling timer 7. *)
Lemma absent_id_is_404_seven :
  get_recipe example_isoformat example_str (example_world 300) 7 pasta_db =
    ((JObj [("error", JStr "Recept niet gevonden")], 404), pasta_db) /\
  toggle_timer example_str (example_world 300) 7 pasta_db =
    ((JObj [("error", JStr "Timer niet gevonden")], 404), pasta_db).
Proof.
  destruct (absent_id_is_404 example_isoformat example_str (example_world 300)
              example_connection pasta_db 7 eq_refl) as [Hrecipe Htimer].
  split; [apply Hrecipe | apply Htimer]; reflexivity.
Defined.

(** Listing the recipes of [two_recipes_db]. *)
Lemma get_recipes_newest_first_two_recipes :
  exists rows objects,
    get_recipes example_isoformat example_str (example_world 300) two_recipes_db =
      ((JArr objects, 200), two_recipes_db) /\
    objects =
      map (fun r =>
             JObj [("id", JInt (Recipe.id r));
                   ("title", JStr (Recipe.title r));
                   ("ingredients", text_json (Recipe.ingredients r));
                   ("instructions", text_json (Recipe.instructions r));
                   ("cooking_time", int_json (Recipe.cooking_time r));
                   ("servings", int_json (Recipe.servings r));
                   ("created_at", iso_json example_isoformat (Recipe.created_at r))])
          rows /\
    Permutation (recipes two_recipes_db) rows /\
    StronglySorted newest_first rows /\
    (forall a b x y,
        In a rows -> In b rows ->
        Recipe.created_at a = Some x -> Recipe.created_at b = Some y -> y < x ->
        exists before between after, rows = before ++ a :: between ++ b :: after) /\
    (recipes two_recipes_db = [] -> objects = []) /\
    Forall (fun o => keys o = Some recipe_keys /\ ~ In "timers" recipe_keys) objects.
Proof.
  exact (get_recipes_newest_first example_isoformat example_str (example_world 300)
           example_connection two_recipes_db eq_refl).
Defined.

(** The same listing, run: the recipe stored last comes first. *)
Lemma get_recipes_two_recipes_run :
  fst (get_recipes example_isoformat example_str (example_world 300) two_recipes_db)
    = (JArr [JObj (recipe_fields example_isoformat soep_row);
             JObj (recipe_fields example_isoformat pasta_row)], 200).
Proof. reflexivity. Qed.

(** Posting [first_step] to [pasta_db] and reading recipe 1. *)
Lemma add_timer_then_get_recipe_first_step :
  exists timer_id db' body rows t,
    add_timer example_str example_int4in example_text_of (example_world 200)
              (Some (JObj first_step)) pasta_db =
      ((JObj [("message", JStr "Timer toegevoegd");
              ("timer_id", JInt timer_id)], 201), db') /\
    get_recipe example_isoformat example_str (example_world 300) 1 db' =
      ((JObj body, 200), db') /\
    lookup "timers" body = Some (JArr (map (fun t => JObj (timer_fields t)) rows)) /\
    Permutation (filter (of_recipe 1) (timers db')) rows /\
    StronglySorted lowest_step_first rows /\
    In t rows /\
    timer_fields t =
      [("id", JInt timer_id);
       ("step_number", JInt 1);
       ("step_description", JStr "");
       ("duration_minutes", JInt 5);
       ("active", JBool false)].
Proof.
  apply (add_timer_then_get_recipe example_isoformat example_str example_int4in
           example_text_of (example_world 200) (example_world 300)
           example_connection example_connection pasta_db first_step 1 1 (JInt 5));
    try reflexivity.
  - exact consistent_pasta_db.
  - unfold int4_max. cbn. lia.
Defined.

(** The timers in the answer for recipe 1 of [timed_db]. *)
Lemma get_recipe_timer_fields_timed_db :
  exists fields rows,
    fst (fst (get_recipe example_isoformat example_str (example_world 300) 1 timed_db))
      = JObj fields /\
    lookup "timers" fields = Some (JArr (map (fun t => JObj (timer_fields t)) rows)) /\
    Permutation (filter (of_recipe 1) (timers timed_db)) rows /\
    Forall (fun o => keys o = Some timer_keys /\
                     ~ In "recipe_id" timer_keys /\ ~ In "created_at" timer_keys)
           (map (fun t => JObj (timer_fields t)) rows).
Proof.
  apply (get_recipe_timer_fields example_isoformat example_str (example_world 300) 1
           timed_db timed_db). reflexivity.
Defined.

(** A payload with neither a title nor a recipe_id, posted to both
    creating endpoints. *)
Lemma missing_field_is_500_step_only :
  add_recipe example_str example_int4in example_text_of (example_world 300)
             (Some (JObj [("step_number", JInt 1)])) pasta_db =
    ((JObj [("error", JStr "'title'")], 500), pasta_db) /\
  exists msg,
    add_timer example_str example_int4in example_text_of (example_world 300)
              (Some (JObj [("step_number", JInt 1)])) pasta_db =
      ((JObj [("error", JStr msg)], 500), pasta_db).
Proof.
  destruct (missing_field_is_500 example_str example_int4in example_text_of
              (example_world 300) [("step_number", JInt 1)] pasta_db)
    as [Hrecipe Htimer].
  split; [apply Hrecipe; reflexivity | apply Htimer; left; reflexivity].
Defined.

(** C4 as stated fails: a recipe payload without a title is answered
    with 500, a server error status and no client error status. *)
Lemma missing_title_is_server_error :
  fst (add_recipe example_str example_int4in example_text_of (example_world 300)
                  (Some (JObj [("ingredients", JStr "pasta, zout")])) pasta_db)
    = (JObj [("error", JStr "'title'")], 500) /\
  server_error
    (fst (add_recipe example_str example_int4in example_text_of (example_world 300)
                     (Some (JObj [("ingredients", JStr "pasta, zout")])) pasta_db)) /\
  ~ client_error
    (fst (add_recipe example_str example_int4in example_text_of (example_world 300)
                     (Some (JObj [("ingredients", JStr "pasta, zout")])) pasta_db)).
Proof.
  split; [reflexivity|]. unfold server_error, client_error. cbn. lia.
Qed.



(** The numbers of [pasta] and [first_step] as they are stored. *)
Lemma stored_numbers_as_supplied_pasta :
  (exists r,
      recipes pasta_db = recipes init_db ++ [r] /\
      Recipe.cooking_time r = Some 20 /\ Recipe.servings r = Some 2 /\
      recipe_numbers_hold r) /\
  (exists t,
      timers timed_db = timers pasta_db ++ [t] /\
      Timer.duration_minutes t = Some 5 /\
      timer_numbers_hold t).
Proof.
  split.
  - destruct (proj1 (stored_numbers_as_supplied example_str example_int4in
                       example_text_of (example_world 100) pasta init_db pasta_db
                       (JObj [("message", JStr "Recept toegevoegd");
                              ("recipe_id", JInt 1)])) eq_refl)
      as (r & Hrows & Hct & Hsv & Hok).
    exists r. split; [exact Hrows|].
    split; [apply Hct; reflexivity|]. split; [apply Hsv; reflexivity|].
    apply (Hok 20 2); [reflexivity | reflexivity | lia | lia].
  - destruct (proj2 (stored_numbers_as_supplied example_str example_int4in
                       example_text_of (example_world 200) first_step pasta_db timed_db
                       (JObj [("message", JStr "Timer toegevoegd");
                              ("timer_id", JInt 1)])) eq_refl)
      as (t & Hrows & Hdm & Hok).
    exists t. split; [exact Hrows|]. split; [apply Hdm; reflexivity|].
    apply (Hok 5); [reflexivity | lia].
Defined.

(** C9 as stated fails: [add_recipe] answers 201 to a payload with
    servings 0 and cooking_time -5 and stores both numbers, and
    [add_timer] answers 201 to a payload with duration_minutes -1 and
    stores it. *)
Lemma odd_numbers_are_stored :
  (exists r,
      add_recipe example_str example_int4in example_text_of (example_world 100)
                 (Some (JObj odd_recipe)) init_db =
        ((JObj [("message", JStr "Recept toegevoegd"); ("recipe_id", JInt 1)], 201),
         Database [r] [] 2 1) /\
      Recipe.servings r = Some 0 /\ Recipe.cooking_time r = Some (-5) /\
      ~ recipe_numbers_hold r) /\
  (exists t,
      add_timer example_str example_int4in example_text_of (example_world 200)
                (Some (JObj odd_step)) pasta_db =
        ((JObj [("message", JStr "Timer toegevoegd"); ("timer_id", JInt 1)], 201),
         Database [pasta_row] [t] 2 2) /\
      Timer.duration_minutes t = Some (-1) /\
      ~ timer_numbers_hold t).
Proof.
  split.
  - exists (Recipe.Row 1 "Soep" (Some "") (Some "") (Some (-5)) (Some 0) (Some 100)).
    split; [reflexivity|]. split; [reflexivity|]. split; [reflexivity|].
    intros [(n & Hn & Hpos) _]. cbn in Hn. injection Hn as <-. lia.
  - exists (Timer.Row 1 (Some 1) 2 (Some "") (Some (-1)) (Some false) (Some 200)).
    split; [reflexivity|]. split; [reflexivity|].
    intros (n & Hn & Hpos). cbn in Hn. injection Hn as <-. lia.
Qed.

(** ** Further runs on the sample data *)

Lemma no_connection_is_500_offline :
  get_recipes example_isoformat example_str offline_world timed_db
    = (connection_failed, timed_db) /\
  add_recipe example_str example_int4in example_text_of offline_world
             (Some (JObj pasta)) timed_db
    = (connection_failed, timed_db).
Proof.
  destruct (no_connection_is_500 example_isoformat example_str example_int4in
              example_text_of offline_world timed_db eq_refl)
    as (Hlist & _ & _ & Hadd & _).
  split; [exact Hlist | apply Hadd].
Defined.

Lemma reads_keep_the_store_timed_db :
  snd (serve example_isoformat example_str example_int4in example_text_of
             (example_world 300) (GET_recipe 1) timed_db) = timed_db.
Proof.
  apply reads_keep_the_store. reflexivity.
Defined.

Lemma failures_carry_only_error_seven :
  exists msg,
    fst (fst (serve example_isoformat example_str example_int4in example_text_of
                    (example_world 300) (GET_recipe 7) pasta_db))
      = JObj [("error", JStr msg)].
Proof.
  apply failures_carry_only_error;
    [reflexivity | vm_compute; discriminate | vm_compute; discriminate].
Defined.

Lemma body_must_be_an_object_list :
  (exists msg,
      add_recipe example_str example_int4in example_text_of (example_world 300)
                 (Some (JArr [JObj pasta])) pasta_db
        = ((JObj [("error", JStr msg)], 500), pasta_db)) /\
  (exists msg,
      add_timer example_str example_int4in example_text_of (example_world 300)
                (Some (JArr [JObj pasta])) pasta_db
        = ((JObj [("error", JStr msg)], 500), pasta_db)).
Proof.
  apply body_must_be_an_object. right. eexists. split; reflexivity.
Defined.

Lemma sessions_stay_consistent_sample :
  consistent (session example_isoformat example_str example_int4in example_text_of
                      sample_session init_db).
Proof.
  apply sessions_stay_consistent. exact consistent_init_db.
Defined.

Lemma ids_are_never_reused_sample :
  fst (add_recipe example_str example_int4in example_text_of (example_world 600)
                  (Some (JObj odd_recipe))
                  (session example_isoformat example_str example_int4in example_text_of
                           (tl sample_session) pasta_db))
    = (JObj [("message", JStr "Recept toegevoegd"); ("recipe_id", JInt 2)], 201) /\
  1 < 2.
Proof.
  split; [reflexivity|].
  apply (proj1 (ids_are_never_reused example_isoformat example_str example_int4in
                  example_text_of (example_world 100) (example_world 600)
                  (Some (JObj pasta)) (Some (JObj odd_recipe)) (tl sample_session)
                  init_db pasta_db
                  (snd (add_recipe example_str example_int4in example_text_of
                          (example_world 600) (Some (JObj odd_recipe))
                          (session example_isoformat example_str example_int4in
                                   example_text_of (tl sample_session) pasta_db)))
                  1 2));
    reflexivity.
Defined.

Lemma other_keys_are_ignored_pasta :
  add_recipe example_str example_int4in example_text_of (example_world 100)
             (Some (JObj pasta_with_extras)) init_db
    = add_recipe example_str example_int4in example_text_of (example_world 100)
                 (Some (JObj pasta)) init_db.
Proof.
  apply (proj1 (other_keys_are_ignored example_str example_int4in example_text_of
                  (example_world 100) pasta_with_extras pasta init_db)).
  unfold agree_on, recipe_payload_keys. repeat constructor.
Defined.

Lemma null_in_required_column_is_500_title :
  exists msg db',
    add_recipe example_str example_int4in example_text_of (example_world 100)
               (Some (JObj [("title", JNull); ("servings", JInt 2)])) pasta_db
      = ((JObj [("error", JStr msg)], 500), db') /\
    recipes db' = recipes pasta_db /\ timers db' = timers pasta_db.
Proof.
  apply (proj1 (null_in_required_column_is_500 example_str example_int4in
                  example_text_of (example_world 100)
                  [("title", JNull); ("servings", JInt 2)] pasta_db)).
  reflexivity.
Defined.

Lemma out_of_range_integer_is_500_servings :
  exists msg db',
    add_recipe example_str example_int4in example_text_of (example_world 100)
               (Some (JObj [("title", JStr "Soep"); ("servings", JInt 3000000000)]))
               pasta_db
      = ((JObj [("error", JStr msg)], 500), db') /\
    recipes db' = recipes pasta_db /\ timers db' = timers pasta_db.
Proof.
  apply (proj1 (out_of_range_integer_is_500 example_str example_int4in example_text_of
                  (example_world 100)
                  [("title", JStr "Soep"); ("servings", JInt 3000000000)] pasta_db
                  3000000000 eq_refl)).
  right. reflexivity.
Defined.

Lemma long_title_is_500_sample :
  exists msg db',
    add_recipe example_str example_int4in example_text_of (example_world 100)
               (Some (JObj [("title", JStr long_title)])) pasta_db
      = ((JObj [("error", JStr msg)], 500), db') /\
    recipes db' = recipes pasta_db /\ timers db' = timers pasta_db.
Proof.
  apply (long_title_is_500 example_str example_int4in example_text_of
           (example_world 100) [("title", JStr long_title)] pasta_db long_title).
  - reflexivity.
  - apply Nat.ltb_lt. reflexivity.
  - reflexivity.
Defined.

Lemma toggle_timer_then_get_recipe_first_step :
  exists db1 body rows,
    toggle_timer example_str (example_world 300) 1 timed_db
      = ((JObj [("active", JBool true)], 200), db1) /\
    get_recipe example_isoformat example_str (example_world 400) 1 db1
      = ((JObj body, 200), db1) /\
    lookup "timers" body = Some (JArr (map (fun t => JObj (timer_fields t)) rows)) /\
    In (Timer.set_active (Some true) first_step_row) rows.
Proof.
  apply (toggle_timer_then_get_recipe example_isoformat example_str
           (example_world 300) (example_world 400) example_connection
           example_connection timed_db 1 1 first_step_row false);
    reflexivity.
Defined.

Lemma add_recipe_then_get_recipes_pasta :
  exists r rows,
    JObj [("message", JStr "Recept toegevoegd"); ("recipe_id", JInt 1)]
      = JObj [("message", JStr "Recept toegevoegd"); ("recipe_id", JInt (Recipe.id r))] /\
    Recipe.created_at r = Some 100 /\
    get_recipes example_isoformat example_str (example_world 150) pasta_db
      = ((JArr (map (fun r => JObj (recipe_fields example_isoformat r)) rows), 200),
         pasta_db) /\
    Permutation (r :: recipes init_db) rows.
Proof.
  apply (add_recipe_then_get_recipes example_isoformat example_str example_int4in
           example_text_of (example_world 100) (example_world 150) example_connection
           (Some (JObj pasta))
           (JObj [("message", JStr "Recept toegevoegd"); ("recipe_id", JInt 1)])
           init_db pasta_db);
    reflexivity.
Defined.

Lemma creating_keeps_other_answers_pasta :
  fst (get_recipe example_isoformat example_str (example_world 300) 1
         (snd (add_recipe example_str example_int4in example_text_of (example_world 200)
                          (Some (JObj odd_recipe)) pasta_db)))
    = fst (get_recipe example_isoformat example_str (example_world 300) 1 pasta_db) /\
  fst (get_recipe example_isoformat example_str (example_world 300) 2
         (snd (add_timer example_str example_int4in example_text_of (example_world 200)
                         (Some (JObj first_step)) pasta_db)))
    = fst (get_recipe example_isoformat example_str (example_world 300) 2 pasta_db).
Proof.
  split.
  - apply (proj1 (creating_keeps_other_answers example_isoformat example_str
                    example_int4in example_text_of (example_world 300)
                    (example_world 200) pasta_db 1)).
    reflexivity.
  - apply (proj2 (creating_keeps_other_answers example_isoformat example_str
                    example_int4in example_text_of (example_world 300)
                    (example_world 200) pasta_db 2) first_step 1).
    + reflexivity.
    + discriminate.
Defined.

Lemma toggles_commute_sample :
  Permutation
    (timers (snd (toggle_timer example_str (example_world 400) 1
                    (snd (toggle_timer example_str (example_world 300) 2 two_timers_db)))))
    (timers (snd (toggle_timer example_str (example_world 300) 2
                    (snd (toggle_timer example_str (example_world 400) 1 two_timers_db))))) /\
  fst (toggle_timer example_str (example_world 400) 1
         (snd (toggle_timer example_str (example_world 300) 2 two_timers_db)))
    = fst (toggle_timer example_str (example_world 400) 1 two_timers_db).
Proof.
  destruct (toggles_commute example_str (example_world 300) (example_world 400)
              2 1 two_timers_db) as [(_ & _ & _ & _ & Hperm) Hanswer].
  split; [exact Hperm | apply Hanswer; discriminate].
Defined.

Lemma new_timer_toggles_to_true_first_step :
  fst (toggle_timer example_str (example_world 300) 1 timed_db)
    = (JObj [("active", JBool true)], 200).
Proof.
  apply (new_timer_toggles_to_true example_str example_int4in example_text_of
           (example_world 200) (example_world 300) example_connection
           (Some (JObj first_step)) pasta_db timed_db 1);
    reflexivity.
Defined.

Lemma found_iff_stored_pasta :
  (snd (fst (get_recipe example_isoformat example_str (example_world 300) 1 pasta_db))
     = 200 <-> has_recipe 1 pasta_db = true) /\
  (snd (fst (get_recipe example_isoformat example_str (example_world 300) 1 pasta_db))
     = 404 <-> has_recipe 1 pasta_db = false) /\
  (snd (fst (toggle_timer example_str (example_world 300) 1 pasta_db))
     = 200 <-> has_timer 1 pasta_db = true) /\
  (snd (fst (toggle_timer example_str (example_world 300) 1 pasta_db))
     = 404 <-> has_timer 1 pasta_db = false).
Proof.
  exact (found_iff_stored example_isoformat example_str (example_world 300)
           example_connection pasta_db 1 eq_refl).
Defined.

Lemma init_db_on_again_pasta_server :
  init_db_on (example_world 1000) pasta_server = pasta_server.
Proof.
  apply (proj2 (init_db_on_again (example_world 1000) pasta_server) pasta_db).
  reflexivity.
Defined.

Lemma init_db_on_makes_the_schema_fresh :
  store_of (init_db_on (example_world 1000) fresh_server) = Some init_db /\
  init_db_on offline_world fresh_server = fresh_server.
Proof.
  destruct (init_db_on_makes_the_schema (example_world 1000) fresh_server)
    as [Hup _].
  destruct (Hup example_connection eq_refl) as (_ & _ & _ & _ & _ & Hfresh).
  split; [exact Hfresh|].
  apply (proj2 (init_db_on_makes_the_schema offline_world fresh_server)).
  reflexivity.
Defined.
